(** * examples/language/llama/benchmark.py

    A shallow embedding of the LLaMA pretraining benchmark script and the
    properties of its argument handling, plugin selection, dataset sizing,
    training loops and throughput bookkeeping.

    Python integers are unbounded, hence [Z].  Wall-clock readings and the
    fractional command-line knobs are rationals ([Q]).  Every call into the
    framework is recorded as an [Event] in a trace; what the framework
    answers is read from a [World]. *)

From Stdlib Require Import String ZArith QArith List Bool Lia.
Import ListNotations.

Local Open Scope string_scope.
Local Open Scope list_scope.
Local Open Scope Z_scope.

(** ** Command line *)

(** The namespace returned by [parser.parse_args()], one field per
    [add_argument] of [main]. *)
Module Args.
Record t := mk {
  config : string;
  plugin : string;
  batch_size : Z;
  num_steps : Z;
  ignore_steps : Z;
  grad_checkpoint : bool;
  max_length : Z;
  warmup_ratio : Q;
  memory_limit : option Z;
  xformers : bool;
  shard_param_frac : Q;
  offload_optim_frac : Q;
  offload_param_frac : Q;
  tp : Z;
  extra_dp : Z;
  pp : Z;
  mbs : Z;
  zero : Z;
  custom_ckpt : bool;
  profile : bool
}.

(** The [default=] of every argument ([store_true] flags default to
    [False], [--memory_limit] to [None]). *)
Definition defaults : t :=
  {| config := "7b"; plugin := "gemini"; batch_size := 2; num_steps := 5;
     ignore_steps := 2; grad_checkpoint := false; max_length := 4096;
     warmup_ratio := (8 # 10)%Q; memory_limit := None; xformers := false;
     shard_param_frac := 1%Q; offload_optim_frac := 0%Q;
     offload_param_frac := 0%Q; tp := 1; extra_dp := 1; pp := 1; mbs := 1;
     zero := 0; custom_ckpt := false; profile := false |}.

Definition with_plugin (p : string) (a : t) : t :=
  mk (config a) p (batch_size a) (num_steps a) (ignore_steps a)
     (grad_checkpoint a) (max_length a) (warmup_ratio a) (memory_limit a)
     (xformers a) (shard_param_frac a) (offload_optim_frac a)
     (offload_param_frac a) (tp a) (extra_dp a) (pp a) (mbs a) (zero a)
     (custom_ckpt a) (profile a).

Definition with_config (c : string) (a : t) : t :=
  mk c (plugin a) (batch_size a) (num_steps a) (ignore_steps a)
     (grad_checkpoint a) (max_length a) (warmup_ratio a) (memory_limit a)
     (xformers a) (shard_param_frac a) (offload_optim_frac a)
     (offload_param_frac a) (tp a) (extra_dp a) (pp a) (mbs a) (zero a)
     (custom_ckpt a) (profile a).

Definition with_pp (n : Z) (a : t) : t :=
  mk (config a) (plugin a) (batch_size a) (num_steps a) (ignore_steps a)
     (grad_checkpoint a) (max_length a) (warmup_ratio a) (memory_limit a)
     (xformers a) (shard_param_frac a) (offload_optim_frac a)
     (offload_param_frac a) (tp a) (extra_dp a) n (mbs a) (zero a)
     (custom_ckpt a) (profile a).

Definition with_steps (n i : Z) (a : t) : t :=
  mk (config a) (plugin a) (batch_size a) n i
     (grad_checkpoint a) (max_length a) (warmup_ratio a) (memory_limit a)
     (xformers a) (shard_param_frac a) (offload_optim_frac a)
     (offload_param_frac a) (tp a) (extra_dp a) (pp a) (mbs a) (zero a)
     (custom_ckpt a) (profile a).

Definition with_max_length (n : Z) (a : t) : t :=
  mk (config a) (plugin a) (batch_size a) (num_steps a) (ignore_steps a)
     (grad_checkpoint a) n (warmup_ratio a) (memory_limit a)
     (xformers a) (shard_param_frac a) (offload_optim_frac a)
     (offload_param_frac a) (tp a) (extra_dp a) (pp a) (mbs a) (zero a)
     (custom_ckpt a) (profile a).
End Args.

(** ** Exceptions *)

Inductive Exn : Type :=
| ArgparseError (flag value : string) (choices : list string)
    (* parser.error: usage and "invalid choice: value (choose from ...)",
       then exit status 2 *)
| ValueError (msg : string)
| ExternalError (origin : string)
    (* raised inside the framework and surfaced verbatim *)
| ZeroDivisionError.

(** ** Plugins *)

Inductive dtype : Type := float16 | bfloat16 | float32.

Record MixedPrecision := {
  param_dtype : dtype;
  reduce_dtype : dtype;
  buffer_dtype : dtype
}.

Record CPUOffload := { offload_params : bool }.

(** Keyword arguments: [None] is a keyword the call does not pass. *)
Record GeminiKw := {
  g_placement_policy : option string;
  g_precision : string;
  g_shard_param_frac : option Q;
  g_offload_optim_frac : option Q;
  g_offload_param_frac : option Q;
  g_warmup_non_model_data_ratio : option Q;
  g_tp_size : Z;
  g_extra_dp_size : Z;
  g_enable_fused_normalization : bool;
  g_enable_flash_attention : bool;
  g_max_prefetch : option Z
}.

(** The value of [empty_init()]: the function body is [pass]. *)
Inductive PyNone : Type := py_None.

Record FSDPKw := {
  f_mixed_precision : MixedPrecision;
  f_cpu_offload : option CPUOffload;
  f_param_init_fn : option PyNone
}.

Record PipelineGradientCheckpointConfig := {
  num_ckpt_layers_per_stage : list Z
}.

Record HybridKw := {
  h_tp_size : Z;
  h_pp_size : Z;
  h_zero_stage : Z;
  h_cpu_offload : option bool;
  h_enable_fused_normalization : bool;
  h_enable_flash_attention : bool;
  h_microbatch_size : Z;
  h_initial_scale : option Z;
  h_precision : string;
  h_dp_outside : option bool;
  h_gradient_checkpoint_config : option PipelineGradientCheckpointConfig;
  h_num_layers_per_stage : option (list Z)
}.

Inductive Plugin : Type :=
| GeminiPlugin (kw : GeminiKw)
| TorchFSDPPlugin (kw : FSDPKw)
| HybridParallelPlugin (kw : HybridKw).

(** [isinstance(plugin, HybridParallelPlugin)] *)
Definition is_HybridParallelPlugin (p : Plugin) : bool :=
  match p with HybridParallelPlugin _ => true | _ => false end.

(** [isinstance(plugin, (GeminiPlugin, HybridParallelPlugin))] *)
Definition is_Gemini_or_Hybrid (p : Plugin) : bool :=
  match p with TorchFSDPPlugin _ => false | _ => true end.

(** ** Model configurations *)

Record LlamaKw := {
  hidden_size : option Z;
  intermediate_size : option Z;
  num_hidden_layers : option Z;
  num_attention_heads : option Z;
  max_position_embeddings : option Z;
  num_key_value_heads : option Z
}.

Definition MODEL_CONFIGS : list (string * LlamaKw) :=
  [ ("7b",  {| hidden_size := None; intermediate_size := None;
               num_hidden_layers := None; num_attention_heads := None;
               max_position_embeddings := Some 4096;
               num_key_value_heads := None |});
    ("13b", {| hidden_size := Some 5120; intermediate_size := Some 13824;
               num_hidden_layers := Some 40; num_attention_heads := Some 40;
               max_position_embeddings := Some 4096;
               num_key_value_heads := None |});
    ("70b", {| hidden_size := Some 8192; intermediate_size := Some 28672;
               num_hidden_layers := Some 80; num_attention_heads := Some 64;
               max_position_embeddings := Some 4096;
               num_key_value_heads := Some 8 |}) ].

(** Dictionary lookup by key; [None] is [key not in d]. *)
Fixpoint dict_get {V : Type} (d : list (string * V)) (key : string) : option V :=
  match d with
  | [] => None
  | (k, v) :: d' => if String.eqb key k then Some v else dict_get d' key
  end.

(** A configuration object is either one of the script's own
    [LlamaConfig(...)] values or whatever [AutoConfig.from_pretrained]
    returned for a name. *)
Inductive Config : Type :=
| LlamaConfig (kw : LlamaKw)
| PretrainedConfig (name : string).

(** The attributes of a configuration that the script reads. *)
Record ConfigAttrs := {
  c_model_type : string;
  c_vocab_size : Z;
  c_num_hidden_layers : Z;
  c_hidden_size : Z
}.

(** ** Dataset and dataloader *)

(** The keyword arguments of [RandomDataset(...)]. *)
Record RandomDataset := {
  num_samples : Z;
  ds_max_length : Z;
  ds_vocab_size : Z
}.

Record DataLoader := {
  dl_dataset : RandomDataset;
  dl_batch_size : Z;
  dl_shuffle : bool;
  dl_drop_last : bool;
  dl_len : nat
}.

(** What [on_step_end] is handed as [input_ids]: the pipeline loop
    passes a fresh [torch.empty(rows, cols)], the plain loop unpacks the
    batch the dataloader yielded at that step. *)
Inductive StepInput : Type :=
| torch_empty (rows cols : Z)
| batch_of (step : Z) (dl : DataLoader).

(** ** The framework as seen from the script *)

Record World := {
  world_size : Z;                        (* coordinator.world_size *)
  cuda_is_available : bool;              (* torch.cuda.is_available() *)
  plugin_dp_size : Plugin -> option Z;   (* the dp_size attribute, if the object has one *)
  config_attrs : Config -> ConfigAttrs;
  from_pretrained_ok : string -> bool;   (* does AutoConfig.from_pretrained return? *)
  len_dataloader : Plugin -> RandomDataset -> Z -> nat;
  get_model_numel : Config -> Z;
  clock : nat -> Q                       (* the n-th reading of the wall clock *)
}.

(** ** Events *)

(** One constructor per call that leaves the script, in the spelling of
    the source. *)
Inductive Event : Type :=
| EvLaunchFromTorch
| EvDistCoordinator
| EvPluginInit (p : Plugin)
| EvBooster (p : Plugin)
| EvFromPretrained (name : string) (trust_remote_code : bool)
| EvRandomDataset (ds : RandomDataset)
| EvPrepareDataloader (p : Plugin) (ds : RandomDataset)
    (batch_size : Z) (shuffle drop_last : bool)
| EvLazyInitContext
| EvModelFromConfig (cfg : Config) (trust_remote_code : bool)
    (empty_init : option bool)
| EvGradientCheckpointingEnable
| EvEncoderGradientCheckpointing
| EvPrintModelParams (numel : Z)
| EvPerformanceEvaluator (ignore_steps dp_world_size : Z)
| EvHybridAdam
| EvSetDefaultDtype (d : dtype)
| EvBoost
| EvPrintInitMemory
| EvProfileContext (enable : bool) (warmup_steps active_steps : Z)
| EvIter                              (* data_iter = iter(dataloader) *)
| EvYieldBatch (step : Z)             (* enumerate(dataloader) yields *)
| EvOnStepStart (step : Z)
| EvExecutePipeline (return_loss : bool)
| EvForward (step : Z)                (* outputs = model( **batch ) *)
| EvBackward
| EvOptimizerStep
| EvZeroGrad
| EvOnStepEnd (input_ids : StepInput)
| EvProfStep
| EvOnFitEnd
| EvPrintSummary (elapsed tokens_per_sec : Q)
| EvPrintMaxMemory.

(** The calls that make up a step's forward/backward/update work. *)
Definition is_compute (e : Event) : bool :=
  match e with
  | EvExecutePipeline _ | EvForward _ | EvBackward
  | EvOptimizerStep | EvZeroGrad => true
  | _ => false
  end.

(** ** A state and error monad for the script

    The state is the trace written so far and the number of clock readings
    taken; an exception stops the computation and keeps the state. *)

Record Sys := { trace : list Event; ticks : nat }.

Definition Sys0 : Sys := {| trace := []; ticks := 0 |}.

Definition M (A : Type) : Type := Sys -> Sys * (Exn + A).

Definition ret {A} (a : A) : M A := fun s => (s, inr a).

Definition bind {A B} (m : M A) (k : A -> M B) : M B :=
  fun s =>
    match m s with
    | (s', inl e) => (s', inl e)
    | (s', inr a) => k a s'
    end.

Definition raise {A} (e : Exn) : M A := fun s => (s, inl e).

Definition emit (e : Event) : M unit :=
  fun s => ({| trace := trace s ++ [e]; ticks := ticks s |}, inr tt).

Definition now (w : World) : M Q :=
  fun s => ({| trace := trace s; ticks := S (ticks s) |}, inr (clock w (ticks s))).

Definition lift {A} (r : Exn + A) : M A := fun s => (s, r).

Declare Scope py_scope.
Delimit Scope py_scope with py.
Notation "x <- m ;; k" := (bind m (fun x => k))
  (at level 61, m at next level, right associativity) : py_scope.
Notation "m ;; k" := (bind m (fun _ => k))
  (at level 61, right associativity) : py_scope.
Notation "'when' b 'then' m" := (if b then m else ret tt)
  (at level 60, b at level 0, m at level 60) : py_scope.
Local Open Scope py_scope.

(** ** Argument parsing *)

Definition plugin_choices : list string :=
  ["gemini"; "gemini_auto"; "fsdp"; "fsdp_cpu"; "3d"; "3d_cpu"].

(** [value in choices] *)
Definition str_in (value : string) (l : list string) : bool :=
  existsb (String.eqb value) l.

(** [parser.parse_args()] on command-line values that are already split
    and converted: argparse checks [--plugin] against its [choices] and
    calls [parser.error] otherwise. *)
Definition parse_args (argv : Args.t) : Exn + Args.t :=
  if str_in (Args.plugin argv) plugin_choices
  then inr argv
  else inl (ArgparseError "-p/--plugin" (Args.plugin argv) plugin_choices).

(** ** Plugin selection *)

Definition fp16_mixed_precision : MixedPrecision :=
  {| param_dtype := float16; reduce_dtype := float16; buffer_dtype := float16 |}.

(** [hybrid_kwargs]: the checkpoint layout for LLaMA3-70B on 64 H100 GPUs
    when [--custom-ckpt] is given, otherwise the empty dict. *)
Definition hybrid_kwargs (args : Args.t)
  : option PipelineGradientCheckpointConfig * option (list Z) :=
  if Args.custom_ckpt args
  then (Some {| num_ckpt_layers_per_stage := [19; 19; 19; 13] |},
        Some [19; 20; 20; 21])
  else (None, None).

Definition use_empty_init : bool := true.

(** The [if]/[elif] chain on [args.plugin]. *)
Definition select_plugin (w : World) (args : Args.t) : Exn + Plugin :=
  let name := Args.plugin args in
  if (name =? "gemini")%string then
    inr (GeminiPlugin
      {| g_placement_policy := None;
         g_precision := "bf16";
         g_shard_param_frac := Some (Args.shard_param_frac args);
         g_offload_optim_frac := Some (Args.offload_optim_frac args);
         g_offload_param_frac := Some (Args.offload_param_frac args);
         g_warmup_non_model_data_ratio := None;
         g_tp_size := Args.tp args;
         g_extra_dp_size := Args.extra_dp args;
         g_enable_fused_normalization := cuda_is_available w;
         g_enable_flash_attention := Args.xformers args;
         g_max_prefetch := Some 10 |})
  else if (name =? "gemini_auto")%string then
    inr (GeminiPlugin
      {| g_placement_policy := Some "auto";
         g_precision := "bf16";
         g_shard_param_frac := None;
         g_offload_optim_frac := None;
         g_offload_param_frac := None;
         g_warmup_non_model_data_ratio := Some (Args.warmup_ratio args);
         g_tp_size := Args.tp args;
         g_extra_dp_size := Args.extra_dp args;
         g_enable_fused_normalization := cuda_is_available w;
         g_enable_flash_attention := Args.xformers args;
         g_max_prefetch := None |})
  else if (name =? "fsdp")%string then
    if use_empty_init then
      inr (TorchFSDPPlugin
        {| f_mixed_precision := fp16_mixed_precision;
           f_cpu_offload := None;
           f_param_init_fn := Some py_None |})
    else
      inr (TorchFSDPPlugin
        {| f_mixed_precision := fp16_mixed_precision;
           f_cpu_offload := None;
           f_param_init_fn := None |})
  else if (name =? "fsdp_cpu")%string then
    if use_empty_init then
      inr (TorchFSDPPlugin
        {| f_mixed_precision := fp16_mixed_precision;
           f_cpu_offload := Some {| offload_params := true |};
           f_param_init_fn := Some py_None |})
    else
      inr (TorchFSDPPlugin
        {| f_mixed_precision := fp16_mixed_precision;
           f_cpu_offload := Some {| offload_params := true |};
           f_param_init_fn := None |})
  else if (name =? "3d")%string then
    inr (HybridParallelPlugin
      {| h_tp_size := Args.tp args;
         h_pp_size := Args.pp args;
         h_zero_stage := Args.zero args;
         h_cpu_offload := None;
         h_enable_fused_normalization := cuda_is_available w;
         h_enable_flash_attention := Args.xformers args;
         h_microbatch_size := Args.mbs args;
         h_initial_scale := None;
         h_precision := "bf16";
         h_dp_outside := Some false;
         h_gradient_checkpoint_config := fst (hybrid_kwargs args);
         h_num_layers_per_stage := snd (hybrid_kwargs args) |})
  else if (name =? "3d_cpu")%string then
    inr (HybridParallelPlugin
      {| h_tp_size := Args.tp args;
         h_pp_size := Args.pp args;
         h_zero_stage := Args.zero args;
         h_cpu_offload := Some true;
         h_enable_fused_normalization := cuda_is_available w;
         h_enable_flash_attention := Args.xformers args;
         h_microbatch_size := Args.mbs args;
         h_initial_scale := Some (2 ^ 8);
         h_precision := "bf16";
         h_dp_outside := None;
         h_gradient_checkpoint_config := None;
         h_num_layers_per_stage := None |})
  else
    inl (ValueError ("Unknown plugin " ++ name)%string).

(** [getattr(plugin, "dp_size", coordinator.world_size)] *)
Definition getattr_dp_size (w : World) (p : Plugin) : Z :=
  match plugin_dp_size w p with
  | Some d => d
  | None => world_size w
  end.

(** ** Configuration lookup *)

(** [MODEL_CONFIGS[args.config]] when the tag is a key, otherwise
    [AutoConfig.from_pretrained(args.config, trust_remote_code=True)],
    whose failure is the framework's. *)
Definition resolve_config (w : World) (args : Args.t) : M Config :=
  match dict_get MODEL_CONFIGS (Args.config args) with
  | Some kw => ret (LlamaConfig kw)
  | None =>
      emit (EvFromPretrained (Args.config args) true) ;;
      if from_pretrained_ok w (Args.config args)
      then ret (PretrainedConfig (Args.config args))
      else raise (ExternalError "AutoConfig.from_pretrained")
  end.

(** ** Step measurement *)

(** Modelled from the spec: the shape of the [input_ids] the evaluator
    receives.  The synthetic dataset ([RandomDataset], data_utils.py) is not
    among the sources; the spec describes its samples as fixed-length
    token-id sequences, so a batch drawn by the dataloader has
    [batch_size] rows of [max_length] tokens. *)
Definition shape_of (x : StepInput) : Z * Z :=
  match x with
  | torch_empty rows cols => (rows, cols)
  | batch_of _ dl => (dl_batch_size dl, ds_max_length (dl_dataset dl))
  end.

(** Modelled from the spec: the [PerformanceEvaluator] class
    (performance_evaluator.py) is not among the sources; only its
    constructor call and the calls of [on_step_start], [on_step_end] and
    [on_fit_end] are.  Following the spec, a step measurement is a pair
    (step index, elapsed wall-time) appended to an ordered sequence; the
    first [ignore_steps] measurements are discarded from aggregation
    (window = [ignore_steps, total_steps)); on completion the mean step time
    over the retained window is computed and
    tokens/sec = (batch_size * sequence_length * retained_step_count)
                 / total_retained_time, scaled by the data-parallel replica
    count; the figure is undefined (an error) without a retained step. *)
Module PerformanceEvaluator.
Record t := {
  model_numel : Z;
  num_layers : Z;
  hidden_size : Z;
  vocab_size : Z;
  enable_grad_checkpoint : bool;
  ignore_steps : Z;
  dp_world_size : Z;
  measurements : list (Z * Q);   (* (step index, elapsed) in append order *)
  started : option (Z * Q);      (* the running step and its start reading *)
  num_tokens : Z                 (* tokens of the retained steps so far *)
}.

Definition init (model_numel num_layers hidden_size vocab_size : Z)
    (enable_grad_checkpoint : bool) (ignore_steps dp_world_size : Z) : t :=
  {| model_numel := model_numel; num_layers := num_layers;
     hidden_size := hidden_size; vocab_size := vocab_size;
     enable_grad_checkpoint := enable_grad_checkpoint;
     ignore_steps := ignore_steps; dp_world_size := dp_world_size;
     measurements := []; started := None; num_tokens := 0 |}.

(** A measurement belongs to the window when its index is at least
    [ignore_steps]. *)
Definition in_window (pe : t) (step : Z) : bool := ignore_steps pe <=? step.

Definition on_step_start (pe : t) (step : Z) (timestamp : Q) : t :=
  {| model_numel := model_numel pe; num_layers := num_layers pe;
     hidden_size := hidden_size pe; vocab_size := vocab_size pe;
     enable_grad_checkpoint := enable_grad_checkpoint pe;
     ignore_steps := ignore_steps pe; dp_world_size := dp_world_size pe;
     measurements := measurements pe;
     started := Some (step, timestamp);
     num_tokens := num_tokens pe |}.

Definition on_step_end (pe : t) (shape : Z * Z) (timestamp : Q) : t :=
  match started pe with
  | None => pe
  | Some (step, t0) =>
      let (batch_size, seq_len) := shape in
      {| model_numel := model_numel pe; num_layers := num_layers pe;
         hidden_size := hidden_size pe; vocab_size := vocab_size pe;
         enable_grad_checkpoint := enable_grad_checkpoint pe;
         ignore_steps := ignore_steps pe; dp_world_size := dp_world_size pe;
         measurements := measurements pe ++ [(step, (timestamp - t0)%Q)];
         started := None;
         num_tokens :=
           if in_window pe step
           then num_tokens pe + batch_size * seq_len
           else num_tokens pe |}
  end.

(** The retained window of the measurement sequence. *)
Definition retained (pe : t) : list (Z * Q) :=
  filter (fun m => in_window pe (fst m)) (measurements pe).

Definition total_time (ms : list (Z * Q)) : Q :=
  fold_right (fun m acc => (snd m + acc)%Q) 0%Q ms.

(** What [on_fit_end] reports. *)
Record Summary := {
  retained_time : Q;     (* total elapsed time of the retained window *)
  mean_step_time : Q;
  tokens_per_sec : Q
}.

(** Mean step time over the retained window and the throughput derived
    from it; both divisions fail on an empty window or a zero total. *)
Definition on_fit_end (pe : t) : Exn + Summary :=
  let kept := retained pe in
  let count := Z.of_nat (length kept) in
  let total := total_time kept in
  if (count =? 0) || Qeq_bool total 0
  then inl ZeroDivisionError
  else
    inr {| retained_time := total;
           mean_step_time := (total / inject_Z count)%Q;
           tokens_per_sec :=
             (inject_Z (num_tokens pe) / total
              * inject_Z (dp_world_size pe))%Q |}.
End PerformanceEvaluator.

Module PE := PerformanceEvaluator.

(** ** The training loops *)

(** [for step in tqdm(range(len(dataloader)))] of the pipeline branch;
    [n] steps remain and [step] is the next index. *)
Fixpoint pipeline_loop (w : World) (args : Args.t) (n : nat) (step : Z)
    (pe : PE.t) : M PE.t :=
  match n with
  | O => ret pe
  | S n' =>
      emit (EvOnStepStart step) ;;
      t0 <- now w ;;
      let pe := PE.on_step_start pe step t0 in
      emit (EvExecutePipeline false) ;;
      emit EvOptimizerStep ;;
      emit EvZeroGrad ;;
      let input_ids := torch_empty (Args.batch_size args) (Args.max_length args) in
      emit (EvOnStepEnd input_ids) ;;
      t1 <- now w ;;
      let pe := PE.on_step_end pe (shape_of input_ids) t1 in
      emit EvProfStep ;;
      pipeline_loop w args n' (step + 1) pe
  end.

(** [for step, batch in enumerate(tqdm(dataloader))] of the other branch. *)
Fixpoint plain_loop (w : World) (dataloader : DataLoader) (n : nat) (step : Z)
    (pe : PE.t) : M PE.t :=
  match n with
  | O => ret pe
  | S n' =>
      emit (EvYieldBatch step) ;;
      emit (EvOnStepStart step) ;;
      t0 <- now w ;;
      let pe := PE.on_step_start pe step t0 in
      emit (EvForward step) ;;
      emit EvBackward ;;
      emit EvOptimizerStep ;;
      emit EvZeroGrad ;;
      let batch := batch_of step dataloader in
      emit (EvOnStepEnd batch) ;;
      t1 <- now w ;;
      let pe := PE.on_step_end pe (shape_of batch) t1 in
      emit EvProfStep ;;
      plain_loop w dataloader n' (step + 1) pe
  end.

(** The guard of the pipeline branch. *)
Definition pipeline_guard (plugin : Plugin) (args : Args.t) : bool :=
  is_HybridParallelPlugin plugin && (1 <? Args.pp args).

(** ** main *)

Definition main (w : World) (argv : Args.t) : M unit :=
  args <- lift (parse_args argv) ;;
  emit EvLaunchFromTorch ;;
  emit EvDistCoordinator ;;
  (* Initialize Booster *)
  plugin <- lift (select_plugin w args) ;;
  emit (EvPluginInit plugin) ;;
  emit (EvBooster plugin) ;;
  (* Initialize Dataset and Dataloader *)
  let dp_size := getattr_dp_size w plugin in
  config <- resolve_config w args ;;
  let attrs := config_attrs w config in
  let dataset :=
    {| num_samples := Args.batch_size args * Args.num_steps args * dp_size;
       ds_max_length := Args.max_length args;
       ds_vocab_size := c_vocab_size attrs |} in
  emit (EvRandomDataset dataset) ;;
  emit (EvPrepareDataloader plugin dataset (Args.batch_size args) true true) ;;
  let dataloader :=
    {| dl_dataset := dataset; dl_batch_size := Args.batch_size args;
       dl_shuffle := true; dl_drop_last := true;
       dl_len := len_dataloader w plugin dataset (Args.batch_size args) |} in
  (* Initialize Model and Optimizer *)
  (if is_Gemini_or_Hybrid plugin then emit EvLazyInitContext else ret tt) ;;
  let chatglm := (c_model_type attrs =? "chatglm")%string in
  emit (EvModelFromConfig config true (if chatglm then Some false else None)) ;;
  (if Args.grad_checkpoint args
   then emit EvGradientCheckpointingEnable ;;
        (if chatglm then emit EvEncoderGradientCheckpointing else ret tt)
   else ret tt) ;;
  let model_numel := get_model_numel w config in
  emit (EvPrintModelParams model_numel) ;;
  emit (EvPerformanceEvaluator (Args.ignore_steps args) dp_size) ;;
  let performance_evaluator :=
    PE.init model_numel (c_num_hidden_layers attrs) (c_hidden_size attrs)
      (c_vocab_size attrs) (Args.grad_checkpoint args)
      (Args.ignore_steps args) dp_size in
  emit EvHybridAdam ;;
  emit (EvSetDefaultDtype bfloat16) ;;
  emit EvBoost ;;
  emit (EvSetDefaultDtype float32) ;;
  emit EvPrintInitMemory ;;
  emit EvPrintInitMemory ;;
  emit (EvProfileContext (Args.profile args) 1 (Z.of_nat (dl_len dataloader) - 1)) ;;
  performance_evaluator <-
    (if pipeline_guard plugin args
     then emit EvIter ;;
          pipeline_loop w args (dl_len dataloader) 0 performance_evaluator
     else plain_loop w dataloader (dl_len dataloader) 0 performance_evaluator) ;;
  emit EvOnFitEnd ;;
  summary <- lift (PE.on_fit_end performance_evaluator) ;;
  emit (EvPrintSummary (PE.retained_time summary) (PE.tokens_per_sec summary)) ;;
  emit EvPrintMaxMemory.

(** A run of the script from a fresh process. *)
Definition run (w : World) (argv : Args.t) : Sys * (Exn + unit) :=
  main w argv Sys0.

Definition events (w : World) (argv : Args.t) : list Event :=
  trace (fst (run w argv)).

Definition outcome (w : World) (argv : Args.t) : Exn + unit :=
  snd (run w argv).

(** ** A concrete framework for examples

    Eight processes; Gemini and hybrid plugins carry a [dp_size], the FSDP
    plugin does not; every replica gets its share of the dataset in full
    batches; the clock advances by one second per reading. *)
Definition example_dp_size (p : Plugin) : option Z :=
  match p with
  | GeminiPlugin kw => Some (8 / g_tp_size kw)
  | TorchFSDPPlugin _ => None
  | HybridParallelPlugin kw => Some (8 / (h_tp_size kw * h_pp_size kw))
  end.

Definition example_world : World :=
  {| world_size := 8;
     cuda_is_available := true;
     plugin_dp_size := example_dp_size;
     config_attrs := fun _ =>
       {| c_model_type := "llama"; c_vocab_size := 32000;
          c_num_hidden_layers := 32; c_hidden_size := 4096 |};
     from_pretrained_ok := fun name => (name =? "meta-llama/Llama-2-7b-hf")%string;
     len_dataloader := fun p ds bs =>
       Z.to_nat ((num_samples ds / match example_dp_size p with Some d => d | None => 8 end) / bs);
     get_model_numel := fun _ => 6738415616;
     clock := fun n => inject_Z (Z.of_nat n) |}.

(** ** Closed forms of the trace and of the evaluator *)

(** [range(start, start + n)] *)
Fixpoint zrange (start : Z) (n : nat) : list Z :=
  match n with
  | O => []
  | S n' => start :: zrange (start + 1) n'
  end.

(** The work between the two evaluator calls of a step. *)
Definition pipeline_compute : list Event :=
  [EvExecutePipeline false; EvOptimizerStep; EvZeroGrad].

Definition plain_compute (step : Z) : list Event :=
  [EvForward step; EvBackward; EvOptimizerStep; EvZeroGrad].

Definition pipeline_step_events (args : Args.t) (step : Z) : list Event :=
  [EvOnStepStart step] ++ pipeline_compute
  ++ [EvOnStepEnd (torch_empty (Args.batch_size args) (Args.max_length args));
      EvProfStep].

Definition plain_step_events (dl : DataLoader) (step : Z) : list Event :=
  [EvYieldBatch step; EvOnStepStart step] ++ plain_compute step
  ++ [EvOnStepEnd (batch_of step dl); EvProfStep].

(** One measured step: the start is clock reading [tick], the end the
    reading after it. *)
Definition measure_step (w : World) (shape : Z * Z) (pe : PE.t) (step : Z)
    (tick : nat) : PE.t :=
  PE.on_step_end (PE.on_step_start pe step (clock w tick)) shape
    (clock w (S tick)).

Fixpoint measure_loop (w : World) (shape : Z * Z) (n : nat) (step : Z)
    (tick : nat) (pe : PE.t) : PE.t :=
  match n with
  | O => pe
  | S n' =>
      measure_loop w shape n' (step + 1) (S (S tick))
        (measure_step w shape pe step tick)
  end.

(** Elapsed time of the step that starts at clock reading [tick]. *)
Definition elapsed (w : World) (tick : nat) : Q :=
  (clock w (S tick) - clock w tick)%Q.

(** The measurements of [n] consecutive steps. *)
Fixpoint measured (w : World) (n : nat) (step : Z) (tick : nat)
  : list (Z * Q) :=
  match n with
  | O => []
  | S n' => (step, elapsed w tick) :: measured w n' (step + 1) (S (S tick))
  end.

(** The measurements of a list of steps that are inside the window. *)
Definition window (ignore_steps : Z) (ms : list (Z * Q)) : list (Z * Q) :=
  filter (fun m => ignore_steps <=? fst m) ms.

Definition booster_events (plugin : Plugin) : list Event :=
  [EvLaunchFromTorch; EvDistCoordinator; EvPluginInit plugin; EvBooster plugin].

Definition resolve_events (args : Args.t) : list Event :=
  match dict_get MODEL_CONFIGS (Args.config args) with
  | Some _ => []
  | None => [EvFromPretrained (Args.config args) true]
  end.

Definition resolved (w : World) (args : Args.t) : Exn + Config :=
  match dict_get MODEL_CONFIGS (Args.config args) with
  | Some kw => inr (LlamaConfig kw)
  | None =>
      if from_pretrained_ok w (Args.config args)
      then inr (PretrainedConfig (Args.config args))
      else inl (ExternalError "AutoConfig.from_pretrained")
  end.

Definition dataset_of (w : World) (args : Args.t) (plugin : Plugin)
    (config : Config) : RandomDataset :=
  {| num_samples :=
       Args.batch_size args * Args.num_steps args * getattr_dp_size w plugin;
     ds_max_length := Args.max_length args;
     ds_vocab_size := c_vocab_size (config_attrs w config) |}.

Definition dataloader_of (w : World) (args : Args.t) (plugin : Plugin)
    (config : Config) : DataLoader :=
  {| dl_dataset := dataset_of w args plugin config;
     dl_batch_size := Args.batch_size args;
     dl_shuffle := true; dl_drop_last := true;
     dl_len := len_dataloader w plugin (dataset_of w args plugin config)
                 (Args.batch_size args) |}.

(** The number of steps a run executes: [len(dataloader)]. *)
Definition steps_of (w : World) (args : Args.t) (plugin : Plugin)
    (config : Config) : nat :=
  dl_len (dataloader_of w args plugin config).

Definition evaluator_of (w : World) (args : Args.t) (plugin : Plugin)
    (config : Config) : PE.t :=
  let attrs := config_attrs w config in
  PE.init (get_model_numel w config) (c_num_hidden_layers attrs)
    (c_hidden_size attrs) (c_vocab_size attrs) (Args.grad_checkpoint args)
    (Args.ignore_steps args) (getattr_dp_size w plugin).

Definition setup_events (w : World) (args : Args.t) (plugin : Plugin)
    (config : Config) : list Event :=
  let attrs := config_attrs w config in
  let chatglm := (c_model_type attrs =? "chatglm")%string in
  [EvRandomDataset (dataset_of w args plugin config);
   EvPrepareDataloader plugin (dataset_of w args plugin config)
     (Args.batch_size args) true true]
  ++ (if is_Gemini_or_Hybrid plugin then [EvLazyInitContext] else [])
  ++ [EvModelFromConfig config true (if chatglm then Some false else None)]
  ++ (if Args.grad_checkpoint args
      then EvGradientCheckpointingEnable
           :: (if chatglm then [EvEncoderGradientCheckpointing] else [])
      else [])
  ++ [EvPrintModelParams (get_model_numel w config);
      EvPerformanceEvaluator (Args.ignore_steps args) (getattr_dp_size w plugin);
      EvHybridAdam; EvSetDefaultDtype bfloat16; EvBoost;
      EvSetDefaultDtype float32; EvPrintInitMemory; EvPrintInitMemory;
      EvProfileContext (Args.profile args) 1
        (Z.of_nat (steps_of w args plugin config) - 1)].

Definition loop_events (w : World) (args : Args.t) (plugin : Plugin)
    (config : Config) : list Event :=
  if pipeline_guard plugin args
  then EvIter :: flat_map (pipeline_step_events args)
                   (zrange 0 (steps_of w args plugin config))
  else flat_map (plain_step_events (dataloader_of w args plugin config))
         (zrange 0 (steps_of w args plugin config)).

(** The evaluator as [on_fit_end] finds it. *)
Definition final_evaluator (w : World) (args : Args.t) (plugin : Plugin)
    (config : Config) : PE.t :=
  measure_loop w (Args.batch_size args, Args.max_length args)
    (steps_of w args plugin config) 0 0 (evaluator_of w args plugin config).

Definition report_events (r : Exn + PE.Summary) : list Event :=
  match r with
  | inl _ => []
  | inr s => [EvPrintSummary (PE.retained_time s) (PE.tokens_per_sec s);
              EvPrintMaxMemory]
  end.

Definition report_outcome (r : Exn + PE.Summary) : Exn + unit :=
  match r with
  | inl e => inl e
  | inr _ => inr tt
  end.

(** The measurements of a run of [n] steps: step [k] starts at clock reading
    [2 * k] and ends at the reading after it. *)
Definition step_measurements (w : World) (n : nat) : list (Z * Q) :=
  map (fun k => (Z.of_nat k, elapsed w (2 * k))) (seq 0 n).

(** The clock only moves forward. *)
Definition clock_advances (w : World) : Prop :=
  forall t : nat, (clock w t < clock w (S t))%Q.

(** ** Further observations on a run *)

(** The namespace with another [--memory_limit]. *)
Definition set_memory_limit (m : option Z) (a : Args.t) : Args.t :=
  Args.mk (Args.config a) (Args.plugin a) (Args.batch_size a)
    (Args.num_steps a) (Args.ignore_steps a) (Args.grad_checkpoint a)
    (Args.max_length a) (Args.warmup_ratio a) m (Args.xformers a)
    (Args.shard_param_frac a) (Args.offload_optim_frac a)
    (Args.offload_param_frac a) (Args.tp a) (Args.extra_dp a) (Args.pp a)
    (Args.mbs a) (Args.zero a) (Args.custom_ckpt a) (Args.profile a).

(** The default dtype after a trace: [torch.set_default_dtype] overwrites
    it, nothing else touches it. *)
Definition default_dtype_after (d0 : dtype) (evs : list Event) : dtype :=
  fold_left (fun d e => match e with EvSetDefaultDtype d' => d' | _ => d end)
    evs d0.

(** Every event of a trace with the default dtype in force when it
    happens. *)
Fixpoint with_default_dtype (d : dtype) (evs : list Event)
  : list (Event * dtype) :=
  match evs with
  | [] => []
  | e :: evs' =>
      (e, d)
      :: with_default_dtype
           (match e with EvSetDefaultDtype d' => d' | _ => d end) evs'
  end.

(** How many events of a kind a trace holds. *)
Definition count_events (kind : Event -> bool) (evs : list Event) : nat :=
  length (filter kind evs).

Definition is_on_step_start (e : Event) : bool :=
  match e with EvOnStepStart _ => true | _ => false end.

Definition is_on_step_end (e : Event) : bool :=
  match e with EvOnStepEnd _ => true | _ => false end.

Definition is_optimizer_step (e : Event) : bool :=
  match e with EvOptimizerStep => true | _ => false end.

Definition is_zero_grad (e : Event) : bool :=
  match e with EvZeroGrad => true | _ => false end.

Definition is_prof_step (e : Event) : bool :=
  match e with EvProfStep => true | _ => false end.

(** A forward/backward pass of the model: [model( **batch )] with
    [booster.backward], or one [booster.execute_pipeline]. *)
Definition is_model_pass (e : Event) : bool :=
  match e with EvForward _ | EvExecutePipeline _ => true | _ => false end.

Definition is_backward (e : Event) : bool :=
  match e with EvBackward => true | _ => false end.

Definition is_yield_batch (e : Event) : bool :=
  match e with EvYieldBatch _ => true | _ => false end.

(** ** The monad's laws used below *)

Lemma bind_emit {A} (e : Event) (k : unit -> M A) (s : Sys) :
  bind (emit e) k s = k tt {| trace := trace s ++ [e]; ticks := ticks s |}.
Proof. reflexivity. Qed.

Lemma bind_now {A} (w : World) (k : Q -> M A) (s : Sys) :
  bind (now w) k s
  = k (clock w (ticks s)) {| trace := trace s; ticks := S (ticks s) |}.
Proof. reflexivity. Qed.

Lemma bind_ret {A B} (a : A) (k : A -> M B) (s : Sys) :
  bind (ret a) k s = k a s.
Proof. reflexivity. Qed.

Lemma bind_lift_inr {A B} (a : A) (k : A -> M B) (s : Sys) :
  bind (lift (inr a)) k s = k a s.
Proof. reflexivity. Qed.

Lemma bind_lift_inl {A B} (e : Exn) (k : A -> M B) (s : Sys) :
  bind (lift (inl e)) k s = (s, inl e).
Proof. reflexivity. Qed.

Lemma bind_assoc {A B C} (m : M A) (k : A -> M B) (h : B -> M C) (s : Sys) :
  bind (bind m k) h s = bind m (fun a => bind (k a) h) s.
Proof. unfold bind. destruct (m s) as [s' [e | a]]; reflexivity. Qed.

(** ** The loops *)

Lemma pipeline_loop_run (w : World) (args : Args.t) (n : nat) :
  forall (step : Z) (pe : PE.t) (s : Sys),
    pipeline_loop w args n step pe s
    = ({| trace := trace s ++ flat_map (pipeline_step_events args) (zrange step n);
          ticks := 2 * n + ticks s |},
       inr (measure_loop w (Args.batch_size args, Args.max_length args)
              n step (ticks s) pe)).
Proof.
  induction n as [| n IH]; intros step pe s.
  - destruct s; cbn. now rewrite app_nil_r.
  - cbn [pipeline_loop].
    rewrite !bind_emit, bind_now, !bind_emit, bind_now, bind_emit, IH.
    cbn [trace ticks zrange flat_map measure_loop shape_of].
    unfold measure_step. f_equal.
    f_equal; [ now rewrite <- !app_assoc | lia ].
Qed.

Lemma plain_loop_run (w : World) (dl : DataLoader) (n : nat) :
  forall (step : Z) (pe : PE.t) (s : Sys),
    plain_loop w dl n step pe s
    = ({| trace := trace s ++ flat_map (plain_step_events dl) (zrange step n);
          ticks := 2 * n + ticks s |},
       inr (measure_loop w (dl_batch_size dl, ds_max_length (dl_dataset dl))
              n step (ticks s) pe)).
Proof.
  induction n as [| n IH]; intros step pe s.
  - destruct s; cbn. now rewrite app_nil_r.
  - cbn [plain_loop].
    rewrite !bind_emit, bind_now, !bind_emit, bind_now, bind_emit, IH.
    cbn [trace ticks zrange flat_map measure_loop shape_of].
    unfold measure_step. f_equal.
    f_equal; [ now rewrite <- !app_assoc | lia ].
Qed.

(** ** main, phase by phase *)

Lemma resolve_config_run (w : World) (args : Args.t) (s : Sys) :
  resolve_config w args s
  = ({| trace := trace s ++ resolve_events args; ticks := ticks s |},
     resolved w args).
Proof.
  unfold resolve_config, resolve_events, resolved.
  destruct (dict_get MODEL_CONFIGS (Args.config args)) as [kw |].
  - destruct s; cbn. now rewrite app_nil_r.
  - rewrite bind_emit. destruct (from_pretrained_ok w (Args.config args)); reflexivity.
Qed.

Lemma bind_run {A B} (m : M A) (k : A -> M B) (s s' : Sys) (r : Exn + A) :
  m s = (s', r) ->
  bind m k s = match r with inl e => (s', inl e) | inr a => k a s' end.
Proof. unfold bind. intros ->. destruct r; reflexivity. Qed.

Lemma main_run (w : World) (argv : Args.t) (plugin : Plugin) :
  parse_args argv = inr argv ->
  select_plugin w argv = inr plugin ->
  events w argv
  = booster_events plugin ++ resolve_events argv
    ++ match resolved w argv with
       | inl _ => []
       | inr config =>
           setup_events w argv plugin config
           ++ loop_events w argv plugin config
           ++ EvOnFitEnd
              :: report_events (PE.on_fit_end (final_evaluator w argv plugin config))
       end
  /\ outcome w argv
     = match resolved w argv with
       | inl e => inl e
       | inr config =>
           report_outcome (PE.on_fit_end (final_evaluator w argv plugin config))
       end.
Proof.
  intros Hparse Hsel.
  unfold events, outcome, run, main.
  rewrite Hparse, bind_lift_inr, !bind_emit, Hsel, bind_lift_inr, !bind_emit.
  cbn [trace ticks Sys0 app].
  rewrite (bind_run _ _ _ _ _ (resolve_config_run w argv _)). cbn [trace ticks].
  destruct (resolved w argv) as [e | config].
  { cbn [fst snd trace]. split; [ now rewrite app_nil_r | reflexivity ]. }
  unfold setup_events, loop_events, final_evaluator, steps_of, evaluator_of, dataloader_of.
  cbn [dl_len dl_batch_size dl_dataset ds_max_length].
  set (ds := dataset_of w argv plugin config).
  change {| num_samples := _ ; ds_max_length := _; ds_vocab_size := _ |} with ds.
  set (n := len_dataloader w plugin ds (Args.batch_size argv)).
  set (pe0 := PE.init _ _ _ _ _ _ _).
  destruct (is_Gemini_or_Hybrid plugin), (Args.grad_checkpoint argv) eqn:Hgc,
    (c_model_type (config_attrs w config) =? "chatglm")%string,
    (pipeline_guard plugin argv).
  all: cbv beta iota delta [bind emit lift ret trace ticks Sys0].
  all: first [ rewrite pipeline_loop_run | rewrite plain_loop_run ].
  all: cbn [dl_len dl_batch_size dl_dataset ds_max_length ds dataset_of trace ticks fst snd].
  all: fold ds.
  all: destruct (PE.on_fit_end _) as [e | sm]; cbn [report_events report_outcome trace ticks fst snd].
  all: split; [ | reflexivity ].
  all: unfold booster_events; rewrite <- ?app_assoc; reflexivity.
Qed.

(** ** Plugin names *)

Lemma str_in_In (value : string) (l : list string) :
  str_in value l = true <-> In value l.
Proof.
  unfold str_in. rewrite existsb_exists. split.
  - intros [x [Hx Heq]]. apply String.eqb_eq in Heq. now subst.
  - intros H. exists value. split; [ assumption | apply String.eqb_refl ].
Qed.

Lemma str_in_not_In (value : string) (l : list string) :
  str_in value l = false <-> ~ In value l.
Proof.
  rewrite <- str_in_In. destruct (str_in value l); split; congruence.
Qed.

Lemma parse_args_supported (argv : Args.t) :
  In (Args.plugin argv) plugin_choices -> parse_args argv = inr argv.
Proof.
  intros H. unfold parse_args. apply str_in_In in H. now rewrite H.
Qed.

Lemma select_plugin_supported (w : World) (args : Args.t) :
  In (Args.plugin args) plugin_choices ->
  exists p, select_plugin w args = inr p.
Proof.
  intros H. unfold select_plugin, use_empty_init.
  repeat (destruct H as [<- | H]; [ cbn; eexists; reflexivity |]).
  destruct H.
Qed.

Lemma select_plugin_unknown (w : World) (args : Args.t) :
  ~ In (Args.plugin args) plugin_choices ->
  select_plugin w args
  = inl (ValueError ("Unknown plugin " ++ Args.plugin args)%string).
Proof.
  intros H. unfold select_plugin.
  repeat match goal with
  | |- context [ (?a =? ?b)%string ] =>
      destruct (String.eqb_spec a b) as [Heq | _];
      [ exfalso; apply H; rewrite Heq; cbn; tauto |]
  end.
  reflexivity.
Qed.

(** The class of the selected plugin, by name. *)
Lemma select_plugin_hybrid (w : World) (args : Args.t) (p : Plugin) :
  select_plugin w args = inr p ->
  is_HybridParallelPlugin p = true
  <-> Args.plugin args = "3d" \/ Args.plugin args = "3d_cpu".
Proof.
  unfold select_plugin, use_empty_init.
  repeat match goal with
  | |- context [ (?a =? ?b)%string ] =>
      destruct (String.eqb_spec a b) as [? | ?]
  end; intros Hp; inversion Hp; cbn;
  (split; intros Hx; [ try discriminate; tauto |]);
  try reflexivity;
  destruct Hx as [Hx | Hx]; congruence.
Qed.

Lemma select_plugin_fsdp (w : World) (args : Args.t) (p : Plugin) :
  Args.plugin args = "fsdp" \/ Args.plugin args = "fsdp_cpu" ->
  select_plugin w args = inr p ->
  exists kw, p = TorchFSDPPlugin kw.
Proof.
  unfold select_plugin, use_empty_init.
  intros [H | H]; rewrite H; cbn; intros Hp; inversion Hp; eexists; reflexivity.
Qed.

(** ** The evaluator *)

Lemma measure_step_fields (w : World) (shape : Z * Z) (pe : PE.t) (step : Z)
    (tick : nat) :
  let pe' := measure_step w shape pe step tick in
  PE.ignore_steps pe' = PE.ignore_steps pe
  /\ PE.dp_world_size pe' = PE.dp_world_size pe
  /\ PE.measurements pe' = PE.measurements pe ++ [(step, elapsed w tick)]
  /\ PE.num_tokens pe'
     = PE.num_tokens pe
       + (if PE.ignore_steps pe <=? step then fst shape * snd shape else 0).
Proof.
  destruct shape as [b l]. unfold measure_step, PE.on_step_end, PE.on_step_start.
  cbn. unfold PE.in_window. cbn.
  repeat split. destruct (PE.ignore_steps pe <=? step); lia.
Qed.

Lemma measure_loop_fields (w : World) (shape : Z * Z) (n : nat) :
  forall (step : Z) (tick : nat) (pe : PE.t),
    let pe' := measure_loop w shape n step tick pe in
    PE.ignore_steps pe' = PE.ignore_steps pe
    /\ PE.dp_world_size pe' = PE.dp_world_size pe
    /\ PE.measurements pe' = PE.measurements pe ++ measured w n step tick
    /\ PE.num_tokens pe'
       = PE.num_tokens pe
         + fst shape * snd shape
           * Z.of_nat (length (window (PE.ignore_steps pe) (measured w n step tick))).
Proof.
  induction n as [| n IH]; intros step tick pe; cbn zeta.
  - cbn. rewrite app_nil_r. repeat split. lia.
  - cbn [measure_loop measured].
    destruct (measure_step_fields w shape pe step tick) as (Hi & Hd & Hm & Ht).
    destruct (IH (step + 1) (S (S tick)) (measure_step w shape pe step tick))
      as (Hi' & Hd' & Hm' & Ht').
    rewrite Hi', Hd', Hm', Ht', Hi, Hd, Hm, Ht.
    repeat split.
    + now rewrite <- app_assoc.
    + unfold window. cbn [filter fst].
      destruct (PE.ignore_steps pe <=? step); cbn [length]; lia.
Qed.

Lemma measured_shift (w : World) (n : nat) :
  forall (a : nat),
    measured w n (Z.of_nat a) (2 * a)
    = map (fun k => (Z.of_nat k, elapsed w (2 * k))) (seq a n).
Proof.
  induction n as [| n IH]; intros a; cbn [measured seq map].
  - reflexivity.
  - f_equal. replace (Z.of_nat a + 1) with (Z.of_nat (S a)) by lia.
    replace (S (S (2 * a))) with (2 * S a)%nat by lia. apply IH.
Qed.

Lemma measured_steps (w : World) (n : nat) :
  measured w n 0 0 = step_measurements w n.
Proof. exact (measured_shift w n 0). Qed.

Lemma retained_window (pe : PE.t) :
  PE.retained pe = window (PE.ignore_steps pe) (PE.measurements pe).
Proof. reflexivity. Qed.

Lemma final_evaluator_fields (w : World) (args : Args.t) (plugin : Plugin)
    (config : Config) :
  let pe := final_evaluator w args plugin config in
  let n := steps_of w args plugin config in
  PE.ignore_steps pe = Args.ignore_steps args
  /\ PE.dp_world_size pe = getattr_dp_size w plugin
  /\ PE.measurements pe = step_measurements w n
  /\ PE.retained pe = window (Args.ignore_steps args) (step_measurements w n)
  /\ PE.num_tokens pe
     = Args.batch_size args * Args.max_length args
       * Z.of_nat (length (window (Args.ignore_steps args) (step_measurements w n))).
Proof.
  cbn zeta. unfold final_evaluator.
  destruct (measure_loop_fields w (Args.batch_size args, Args.max_length args)
              (steps_of w args plugin config) 0 0
              (evaluator_of w args plugin config)) as (Hi & Hd & Hm & Ht).
  rewrite retained_window, Hi, Hd, Hm, Ht, measured_steps.
  cbn. repeat split.
Qed.

(** [on_fit_end] of a run, in closed form. *)
Lemma on_fit_end_final (w : World) (args : Args.t) (plugin : Plugin)
    (config : Config) :
  let kept := window (Args.ignore_steps args)
                (step_measurements w (steps_of w args plugin config)) in
  let count := Z.of_nat (length kept) in
  let total := PE.total_time kept in
  PE.on_fit_end (final_evaluator w args plugin config)
  = if (count =? 0) || Qeq_bool total 0
    then inl ZeroDivisionError
    else inr {| PE.retained_time := total;
                PE.mean_step_time := (total / inject_Z count)%Q;
                PE.tokens_per_sec :=
                  (inject_Z (Args.batch_size args * Args.max_length args * count)
                   / total * inject_Z (getattr_dp_size w plugin))%Q |}.
Proof.
  cbn zeta.
  destruct (final_evaluator_fields w args plugin config) as (_ & Hd & _ & Hr & Ht).
  unfold PE.on_fit_end. rewrite Hr, Hd, Ht. reflexivity.
Qed.

(** The window keeps exactly the steps from [ignore_steps] on. *)
Lemma window_spec (ignore_steps : Z) (ms : list (Z * Q)) (m : Z * Q) :
  In m (window ignore_steps ms) <-> In m ms /\ ignore_steps <= fst m.
Proof. unfold window. rewrite filter_In, Z.leb_le. reflexivity. Qed.

Lemma window_empty (w : World) (ignore_steps : Z) (n : nat) :
  Z.of_nat n <= ignore_steps ->
  window ignore_steps (step_measurements w n) = [].
Proof.
  intros H. unfold window, step_measurements.
  destruct (filter _ _) as [| m l] eqn:E; [ reflexivity | exfalso ].
  assert (Hm : In m (m :: l)) by now left.
  rewrite <- E in Hm. apply filter_In in Hm. destruct Hm as [Hm Hle].
  apply in_map_iff in Hm. destruct Hm as (k & <- & Hk).
  apply in_seq in Hk. cbn in Hle. apply Z.leb_le in Hle. lia.
Qed.

Lemma window_nonempty (w : World) (ignore_steps : Z) (n k : nat) :
  (k < n)%nat -> ignore_steps <= Z.of_nat k ->
  window ignore_steps (step_measurements w n) <> [].
Proof.
  intros Hk Hle E.
  assert (Hin : In (Z.of_nat k, elapsed w (2 * k))
                  (window ignore_steps (step_measurements w n))).
  { apply window_spec. split; [| exact Hle ].
    unfold step_measurements. apply in_map_iff. exists k. split; [ reflexivity |].
    apply in_seq. lia. }
  rewrite E in Hin. destruct Hin.
Qed.

Lemma elapsed_pos (w : World) (tick : nat) :
  clock_advances w -> (0 < elapsed w tick)%Q.
Proof.
  intros H. unfold elapsed. apply (proj1 (Qlt_minus_iff _ _)). apply H.
Qed.

Lemma total_time_pos (ms : list (Z * Q)) :
  ms <> [] -> (forall m, In m ms -> (0 < snd m)%Q) ->
  (0 < PE.total_time ms)%Q.
Proof.
  induction ms as [| m ms IH]; intros Hne Hpos; [ congruence |].
  cbn [PE.total_time fold_right].
  destruct ms as [| m' ms'].
  - cbn. rewrite Qplus_0_r. apply Hpos. now left.
  - apply Qlt_trans with (y := (0 + PE.total_time (m' :: ms'))%Q).
    + rewrite Qplus_0_l. apply IH; [ congruence |].
      intros x Hx. apply Hpos. now right.
    + apply Qplus_lt_le_compat; [ apply Hpos; now left | apply Qle_refl ].
Qed.

Lemma window_time_pos (w : World) (ignore_steps : Z) (n : nat) :
  clock_advances w ->
  window ignore_steps (step_measurements w n) <> [] ->
  (0 < PE.total_time (window ignore_steps (step_measurements w n)))%Q.
Proof.
  intros Hclk Hne. apply total_time_pos; [ exact Hne |].
  intros m Hm. apply window_spec in Hm. destruct Hm as [Hm _].
  unfold step_measurements in Hm. apply in_map_iff in Hm.
  destruct Hm as (k & <- & _). cbn. now apply elapsed_pos.
Qed.

(** ** Inverting membership in the trace *)

Lemma run_unsupported (w : World) (argv : Args.t) :
  ~ In (Args.plugin argv) plugin_choices ->
  run w argv
  = (Sys0, inl (ArgparseError "-p/--plugin" (Args.plugin argv) plugin_choices)).
Proof.
  intros H. apply str_in_not_In in H.
  unfold run, main, parse_args. rewrite H. reflexivity.
Qed.

Lemma zrange_In (n : nat) :
  forall (a step : Z), In step (zrange a n) <-> a <= step < a + Z.of_nat n.
Proof.
  induction n as [| n IH]; intros a step; cbn [zrange In].
  - lia.
  - rewrite IH. lia.
Qed.

Lemma zrange_app (k m : nat) :
  forall a : Z, zrange a (k + m) = zrange a k ++ zrange (a + Z.of_nat k) m.
Proof.
  induction k as [| k IH]; intros a; cbn [zrange Nat.add app].
  - now rewrite Z.add_0_r.
  - rewrite IH. do 3 f_equal. lia.
Qed.

Lemma zrange_split (n k : nat) :
  (k < n)%nat ->
  zrange 0 n
  = zrange 0 k ++ Z.of_nat k :: zrange (Z.of_nat k + 1) (n - k - 1).
Proof.
  intros H. replace n with (k + S (n - k - 1))%nat at 1 by lia.
  rewrite zrange_app. cbn [zrange]. reflexivity.
Qed.

Lemma in_loop_events (w : World) (args : Args.t) (plugin : Plugin)
    (config : Config) (e : Event) :
  In e (loop_events w args plugin config) <->
  if pipeline_guard plugin args
  then e = EvIter
       \/ exists step, 0 <= step < Z.of_nat (steps_of w args plugin config)
                       /\ In e (pipeline_step_events args step)
  else exists step, 0 <= step < Z.of_nat (steps_of w args plugin config)
                    /\ In e (plain_step_events
                               (dataloader_of w args plugin config) step).
Proof.
  unfold loop_events. destruct (pipeline_guard plugin args); cbn [In];
    rewrite in_flat_map; split.
  - intros [<- | (step & Hs & He)]; [ now left | right ].
    exists step. apply zrange_In in Hs. split; [ lia | exact He ].
  - intros [<- | (step & Hs & He)]; [ now left | right ].
    exists step. split; [ apply zrange_In; lia | exact He ].
  - intros (step & Hs & He). exists step. apply zrange_In in Hs.
    split; [ lia | exact He ].
  - intros (step & Hs & He). exists step.
    split; [ apply zrange_In; lia | exact He ].
Qed.

(** Every event of a run comes from one of the phases of [main]. *)
Lemma events_inv (w : World) (argv : Args.t) (e : Event) :
  In e (events w argv) ->
  exists plugin,
    In (Args.plugin argv) plugin_choices
    /\ select_plugin w argv = inr plugin
    /\ (In e (booster_events plugin)
        \/ In e (resolve_events argv)
        \/ exists config,
             resolved w argv = inr config
             /\ (In e (setup_events w argv plugin config)
                 \/ In e (loop_events w argv plugin config)
                 \/ e = EvOnFitEnd
                 \/ In e (report_events
                            (PE.on_fit_end
                               (final_evaluator w argv plugin config))))).
Proof.
  intros He.
  destruct (str_in (Args.plugin argv) plugin_choices) eqn:Hin.
  - apply str_in_In in Hin.
    destruct (select_plugin_supported w argv Hin) as [plugin Hsel].
    exists plugin. split; [ exact Hin |]. split; [ exact Hsel |].
    destruct (main_run w argv plugin (parse_args_supported argv Hin) Hsel)
      as [Hev _].
    rewrite Hev in He. rewrite !in_app_iff in He.
    destruct He as [He | [He | He]]; [ now left | now right; left |].
    right; right. destruct (resolved w argv) as [x | config]; [ destruct He |].
    exists config. split; [ reflexivity |].
    rewrite !in_app_iff in He. cbn [In] in He.
    destruct He as [He | [He | [He | He]]]; auto.
  - apply str_in_not_In in Hin.
    unfold events in He. rewrite (run_unsupported w argv Hin) in He.
    destruct He.
Qed.

Lemma events_intro (w : World) (argv : Args.t) (plugin : Plugin)
    (config : Config) (e : Event) :
  In (Args.plugin argv) plugin_choices ->
  select_plugin w argv = inr plugin ->
  resolved w argv = inr config ->
  In e (booster_events plugin)
  \/ In e (resolve_events argv)
  \/ In e (setup_events w argv plugin config)
  \/ In e (loop_events w argv plugin config)
  \/ e = EvOnFitEnd
  \/ In e (report_events (PE.on_fit_end (final_evaluator w argv plugin config))) ->
  In e (events w argv).
Proof.
  intros Hin Hsel Hres He.
  destruct (main_run w argv plugin (parse_args_supported argv Hin) Hsel)
    as [Hev _].
  rewrite Hev, Hres. cbv beta iota. rewrite !in_app_iff. cbn [In].
  intuition congruence.
Qed.

(** Closes a goal whose hypothesis puts an event into a list that cannot
    hold it. *)
Ltac absurd_in H :=
  repeat (cbn [In app report_events] in H;
          match type of H with
          | _ \/ _ => destruct H as [H | H]
          | False => destruct H
          | _ = _ => discriminate H
          end).

Lemma in_pipeline_step (args : Args.t) (step : Z) (e : Event) :
  In e (pipeline_step_events args step) ->
  e = EvOnStepStart step \/ In e pipeline_compute
  \/ e = EvOnStepEnd (torch_empty (Args.batch_size args) (Args.max_length args))
  \/ e = EvProfStep.
Proof.
  unfold pipeline_step_events. cbn. intuition.
Qed.

Lemma in_plain_step (dl : DataLoader) (step : Z) (e : Event) :
  In e (plain_step_events dl step) ->
  e = EvYieldBatch step \/ e = EvOnStepStart step \/ In e (plain_compute step)
  \/ e = EvOnStepEnd (batch_of step dl) \/ e = EvProfStep.
Proof.
  unfold plain_step_events. cbn. intuition.
Qed.

(** What a run can contain of a few kinds of event. *)
Lemma dataset_event_inv (w : World) (argv : Args.t) (ds : RandomDataset) :
  In (EvRandomDataset ds) (events w argv) ->
  exists plugin config,
    select_plugin w argv = inr plugin /\ resolved w argv = inr config
    /\ ds = dataset_of w argv plugin config.
Proof.
  intros He. apply events_inv in He.
  destruct He as (plugin & Hin & Hsel & He).
  exists plugin.
  destruct He as [He | [He | (config & Hres & He)]].
  - unfold booster_events in He. absurd_in He.
  - unfold resolve_events in He.
    destruct (dict_get MODEL_CONFIGS (Args.config argv)); absurd_in He.
  - exists config. split; [ exact Hsel |]. split; [ exact Hres |].
    destruct He as [He | [He | [He | He]]].
    + unfold setup_events in He.
      destruct (is_Gemini_or_Hybrid plugin), (Args.grad_checkpoint argv),
        (c_model_type (config_attrs w config) =? "chatglm")%string;
        cbn [In app] in He;
        (destruct He as [He | He]; [ now inversion He | absurd_in He ]).
    + apply in_loop_events in He.
      destruct (pipeline_guard plugin argv).
      * destruct He as [He | (step & _ & He)]; [ discriminate He |].
        apply in_pipeline_step in He. unfold pipeline_compute in He.
        absurd_in He.
      * destruct He as (step & _ & He).
        apply in_plain_step in He. unfold plain_compute in He. absurd_in He.
    + discriminate He.
    + destruct (PE.on_fit_end _); absurd_in He.
Qed.

(** Splits a hypothesis [He : In e (events w argv)] by the phase that
    emitted [e], discarding the phases that cannot have. *)
Ltac trace_cases He plugin config Hin Hsel Hres :=
  apply events_inv in He;
  destruct He as (plugin & Hin & Hsel & He);
  destruct He as [He | [He | (config & Hres & He)]];
  [ unfold booster_events in He; absurd_in He
  | unfold resolve_events in He;
    destruct (dict_get MODEL_CONFIGS _) eqn:?; absurd_in He
  | destruct He as [He | [He | [He | He]]];
    [ unfold setup_events in He;
      destruct (is_Gemini_or_Hybrid plugin), (Args.grad_checkpoint _),
        (c_model_type _ =? "chatglm")%string;
      absurd_in He
    | apply in_loop_events in He;
      destruct (pipeline_guard plugin _) eqn:?;
      [ destruct He as [He | (step & Hstep & He)];
        [ try discriminate He
        | apply in_pipeline_step in He; unfold pipeline_compute in He;
          absurd_in He ]
      | destruct He as (step & Hstep & He);
        apply in_plain_step in He; unfold plain_compute in He; absurd_in He ]
    | try discriminate He
    | destruct (PE.on_fit_end _) eqn:?; absurd_in He ] ].

Lemma evaluator_event_inv (w : World) (argv : Args.t) (ig d : Z) :
  In (EvPerformanceEvaluator ig d) (events w argv) ->
  exists plugin,
    select_plugin w argv = inr plugin
    /\ ig = Args.ignore_steps argv /\ d = getattr_dp_size w plugin.
Proof.
  intros He. trace_cases He plugin config Hin Hsel Hres;
    inversion He; subst; exists plugin; auto.
Qed.

Lemma summary_event_inv (w : World) (argv : Args.t) (el tp : Q) :
  In (EvPrintSummary el tp) (events w argv) ->
  exists plugin config s,
    select_plugin w argv = inr plugin /\ resolved w argv = inr config
    /\ PE.on_fit_end (final_evaluator w argv plugin config) = inr s
    /\ el = PE.retained_time s /\ tp = PE.tokens_per_sec s.
Proof.
  intros He. trace_cases He plugin config Hin Hsel Hres.
  inversion He; subst. exists plugin, config. eexists. eauto.
Qed.

Lemma step_end_event_inv (w : World) (argv : Args.t) (x : StepInput) :
  In (EvOnStepEnd x) (events w argv) ->
  exists plugin config,
    select_plugin w argv = inr plugin /\ resolved w argv = inr config
    /\ if pipeline_guard plugin argv
       then x = torch_empty (Args.batch_size argv) (Args.max_length argv)
       else exists step,
              0 <= step < Z.of_nat (steps_of w argv plugin config)
              /\ x = batch_of step (dataloader_of w argv plugin config).
Proof.
  intros He. trace_cases He plugin config Hin Hsel Hres;
    inversion He; subst; exists plugin, config;
    (split; [ assumption |]); (split; [ assumption |]);
    match goal with H : pipeline_guard _ _ = _ |- _ => rewrite H end.
  - reflexivity.
  - exists step. split; [ assumption | reflexivity ].
Qed.

Lemma pipeline_event_inv (w : World) (argv : Args.t) (e : Event) :
  e = EvIter \/ (exists r, e = EvExecutePipeline r) ->
  In e (events w argv) ->
  exists plugin,
    select_plugin w argv = inr plugin /\ pipeline_guard plugin argv = true.
Proof.
  intros [-> | [r ->]] He; trace_cases He plugin config Hin Hsel Hres;
    exists plugin; auto.
Qed.

Lemma from_pretrained_event_inv (w : World) (argv : Args.t) (name : string)
    (trust : bool) :
  In (EvFromPretrained name trust) (events w argv) ->
  dict_get MODEL_CONFIGS (Args.config argv) = None
  /\ name = Args.config argv /\ trust = true.
Proof.
  intros He. trace_cases He plugin config Hin Hsel Hres.
  inversion He; subst. auto.
Qed.

Lemma model_event_inv (w : World) (argv : Args.t) (cfg : Config) (trust : bool)
    (ei : option bool) :
  In (EvModelFromConfig cfg trust ei) (events w argv) ->
  resolved w argv = inr cfg /\ trust = true.
Proof.
  intros He. trace_cases He plugin config Hin Hsel Hres;
    inversion He; subst; auto.
Qed.

(** The configuration tags the script knows by itself. *)
Lemma MODEL_CONFIGS_keys (tag : string) :
  dict_get MODEL_CONFIGS tag <> None
  <-> tag = "7b" \/ tag = "13b" \/ tag = "70b".
Proof.
  unfold MODEL_CONFIGS. cbn [dict_get].
  destruct (String.eqb_spec tag "7b"); [ split; [ tauto | discriminate ] |].
  destruct (String.eqb_spec tag "13b"); [ split; [ tauto | discriminate ] |].
  destruct (String.eqb_spec tag "70b"); [ split; [ tauto | discriminate ] |].
  split; [ congruence | tauto ].
Qed.

(** ** The claims *)

(** C1: for every [--plugin] value outside the set {gemini, gemini_auto,
    fsdp, fsdp_cpu, 3d, 3d_cpu} the program stops with a fatal
    configuration error that names the flag, the offending value and the
    accepted ones; it stops once, before any event: nothing of the
    distributed runtime, the dataset or the model has been constructed.  The
    [else] branch of the selection chain would report the same value as
    "Unknown plugin ...". *)
Theorem C1_unknown_plugin_is_fatal (w : World) (argv : Args.t) :
  ~ In (Args.plugin argv) plugin_choices ->
  run w argv
  = (Sys0, inl (ArgparseError "-p/--plugin" (Args.plugin argv)
                  ["gemini"; "gemini_auto"; "fsdp"; "fsdp_cpu"; "3d"; "3d_cpu"]))
  /\ events w argv = []
  /\ select_plugin w argv
     = inl (ValueError ("Unknown plugin " ++ Args.plugin argv)%string).
Proof.
  intros H. split; [| split ].
  - exact (run_unsupported w argv H).
  - unfold events. now rewrite (run_unsupported w argv H).
  - exact (select_plugin_unknown w argv H).
Qed.

Lemma C1_witness :
  run example_world (Args.with_plugin "ddp" Args.defaults)
  = (Sys0, inl (ArgparseError "-p/--plugin" "ddp"
                  ["gemini"; "gemini_auto"; "fsdp"; "fsdp_cpu"; "3d"; "3d_cpu"]))
  /\ events example_world (Args.with_plugin "ddp" Args.defaults) = []
  /\ select_plugin example_world (Args.with_plugin "ddp" Args.defaults)
     = inl (ValueError "Unknown plugin ddp").
Proof.
  apply (C1_unknown_plugin_is_fatal example_world
           (Args.with_plugin "ddp" Args.defaults)).
  cbn. intuition discriminate.
Defined.

(** C2: for every [--plugin] value in the supported set the selection
    yields a plugin object, and the run constructs that object and hands it
    to [Booster] right after the distributed launch. *)
Theorem C2_supported_plugin_reaches_booster (w : World) (argv : Args.t) :
  In (Args.plugin argv) plugin_choices ->
  exists plugin rest,
    select_plugin w argv = inr plugin
    /\ events w argv
       = EvLaunchFromTorch :: EvDistCoordinator :: EvPluginInit plugin
         :: EvBooster plugin :: rest.
Proof.
  intros Hin.
  destruct (select_plugin_supported w argv Hin) as [plugin Hsel].
  destruct (main_run w argv plugin (parse_args_supported argv Hin) Hsel)
    as [Hev _].
  exists plugin. eexists. split; [ exact Hsel |].
  rewrite Hev. unfold booster_events. cbn [app]. reflexivity.
Qed.

Lemma C2_witness :
  exists plugin rest,
    select_plugin example_world (Args.with_plugin "3d_cpu" Args.defaults)
    = inr plugin
    /\ events example_world (Args.with_plugin "3d_cpu" Args.defaults)
       = EvLaunchFromTorch :: EvDistCoordinator :: EvPluginInit plugin
         :: EvBooster plugin :: rest.
Proof.
  apply (C2_supported_plugin_reaches_booster example_world
           (Args.with_plugin "3d_cpu" Args.defaults)).
  cbn. tauto.
Defined.

(** C3: a run constructs the synthetic dataset with
    [num_samples = batch_size * num_steps * dp_size], where [dp_size] is the
    data-parallel size of the selected plugin; every run that gets past
    plugin selection and configuration lookup constructs it. *)
Theorem C3_dataset_length (w : World) (argv : Args.t) :
  (forall ds, In (EvRandomDataset ds) (events w argv) ->
     exists plugin,
       select_plugin w argv = inr plugin
       /\ num_samples ds
          = Args.batch_size argv * Args.num_steps argv
            * getattr_dp_size w plugin)
  /\ (forall plugin config,
        In (Args.plugin argv) plugin_choices ->
        select_plugin w argv = inr plugin ->
        resolved w argv = inr config ->
        exists ds,
          In (EvRandomDataset ds) (events w argv)
          /\ num_samples ds
             = Args.batch_size argv * Args.num_steps argv
               * getattr_dp_size w plugin).
Proof.
  split.
  - intros ds He. apply dataset_event_inv in He.
    destruct He as (plugin & config & Hsel & _ & ->).
    exists plugin. split; [ exact Hsel | reflexivity ].
  - intros plugin config Hin Hsel Hres.
    exists (dataset_of w argv plugin config). split; [| reflexivity ].
    apply (events_intro w argv plugin config _ Hin Hsel Hres).
    right; right; left. unfold setup_events. cbn. now left.
Qed.

Lemma C3_witness :
  exists ds,
    In (EvRandomDataset ds) (events example_world Args.defaults)
    /\ num_samples ds = 2 * 5 * 8.
Proof.
  refine (proj2 (C3_dataset_length example_world Args.defaults)
            (GeminiPlugin _) (LlamaConfig _) _ eq_refl eq_refl).
  cbn. tauto.
Defined.

(** C4: the elapsed time a run reports is the sum of the measurements
    whose step index is at least [ignore_steps], and of no other; with five
    steps and [ignore_steps = 2] these are the three measurements of steps
    2, 3 and 4. *)
Theorem C4_elapsed_uses_window (w : World) (argv : Args.t) (el tp : Q) :
  In (EvPrintSummary el tp) (events w argv) ->
  exists plugin config,
    select_plugin w argv = inr plugin /\ resolved w argv = inr config
    /\ let n := steps_of w argv plugin config in
       let kept := window (Args.ignore_steps argv) (step_measurements w n) in
       el = PE.total_time kept
       /\ (forall m, In m kept <->
                     In m (step_measurements w n)
                     /\ Args.ignore_steps argv <= fst m)
       /\ (n = 5%nat -> Args.ignore_steps argv = 2 ->
           kept = [(2, elapsed w 4); (3, elapsed w 6); (4, elapsed w 8)]
           /\ length kept = 3%nat).
Proof.
  intros He. apply summary_event_inv in He.
  destruct He as (plugin & config & s & Hsel & Hres & Hfit & -> & _).
  exists plugin, config. split; [ exact Hsel |]. split; [ exact Hres |].
  cbn zeta. rewrite on_fit_end_final in Hfit. split; [| split ].
  - destruct (_ || _) in Hfit; [ discriminate Hfit |].
    inversion Hfit. reflexivity.
  - intros m. apply window_spec.
  - intros -> ->. split; reflexivity.
Qed.

Lemma C4_witness :
  exists plugin config,
    select_plugin example_world Args.defaults = inr plugin
    /\ resolved example_world Args.defaults = inr config
    /\ let n := steps_of example_world Args.defaults plugin config in
       let kept := window (Args.ignore_steps Args.defaults)
                     (step_measurements example_world n) in
       (3 # 1)%Q = PE.total_time kept
       /\ (forall m, In m kept <->
                     In m (step_measurements example_world n)
                     /\ Args.ignore_steps Args.defaults <= fst m)
       /\ (n = 5%nat -> Args.ignore_steps Args.defaults = 2 ->
           kept = [(2, elapsed example_world 4); (3, elapsed example_world 6);
                   (4, elapsed example_world 8)]
           /\ length kept = 3%nat).
Proof.
  apply (C4_elapsed_uses_window example_world Args.defaults (3 # 1) (196608 # 3)).
  vm_compute. repeat (first [ left; reflexivity | right ]).
Defined.

Lemma summary_closed_form (w : World) (argv : Args.t) (el tp : Q) :
  In (EvPrintSummary el tp) (events w argv) ->
  exists plugin config,
    select_plugin w argv = inr plugin /\ resolved w argv = inr config
    /\ el = PE.total_time
              (window (Args.ignore_steps argv)
                 (step_measurements w (steps_of w argv plugin config)))
    /\ tp = (inject_Z (Args.batch_size argv * Args.max_length argv
                       * Z.of_nat
                           (length
                              (window (Args.ignore_steps argv)
                                 (step_measurements w
                                    (steps_of w argv plugin config)))))
             / el
             * inject_Z (getattr_dp_size w plugin))%Q.
Proof.
  intros He. apply summary_event_inv in He.
  destruct He as (plugin & config & s & Hsel & Hres & Hfit & -> & ->).
  exists plugin, config. split; [ exact Hsel |]. split; [ exact Hres |].
  rewrite on_fit_end_final in Hfit.
  destruct (_ || _) in Hfit; [ discriminate Hfit |].
  inversion Hfit. split; reflexivity.
Qed.

(** C5: the throughput a run reports is
    [batch_size * max_length * retained_step_count / total_retained_time],
    multiplied by the data-parallel size, where the retained steps are those
    with index at least [ignore_steps]. *)
Theorem C5_throughput_formula (w : World) (argv : Args.t) (el tp : Q) :
  In (EvPrintSummary el tp) (events w argv) ->
  exists plugin config,
    select_plugin w argv = inr plugin /\ resolved w argv = inr config
    /\ let kept := window (Args.ignore_steps argv)
                     (step_measurements w (steps_of w argv plugin config)) in
       let retained_step_count := Z.of_nat (length kept) in
       let total_retained_time := PE.total_time kept in
       el = total_retained_time
       /\ tp = (inject_Z (Args.batch_size argv * Args.max_length argv
                          * retained_step_count)
                / total_retained_time
                * inject_Z (getattr_dp_size w plugin))%Q.
Proof.
  intros He.
  destruct (summary_closed_form w argv el tp He)
    as (plugin & config & Hsel & Hres & Hel & Htp).
  exists plugin, config. split; [ exact Hsel |]. split; [ exact Hres |].
  cbn zeta. split; [ exact Hel |]. rewrite Htp, Hel. reflexivity.
Qed.

Lemma C5_witness :
  exists plugin config,
    select_plugin example_world Args.defaults = inr plugin
    /\ resolved example_world Args.defaults = inr config
    /\ let kept := window (Args.ignore_steps Args.defaults)
                     (step_measurements example_world
                        (steps_of example_world Args.defaults plugin config)) in
       let retained_step_count := Z.of_nat (length kept) in
       let total_retained_time := PE.total_time kept in
       (3 # 1)%Q = total_retained_time
       /\ (196608 # 3)%Q
          = (inject_Z (Args.batch_size Args.defaults
                       * Args.max_length Args.defaults * retained_step_count)
             / total_retained_time
             * inject_Z (getattr_dp_size example_world plugin))%Q.
Proof.
  apply (C5_throughput_formula example_world Args.defaults (3 # 1) (196608 # 3)).
  vm_compute. repeat (first [ left; reflexivity | right ]).
Defined.

Lemma inject_Z_pos (z : Z) : 0 < z -> (0 < inject_Z z)%Q.
Proof. intros H. change 0%Q with (inject_Z 0). now rewrite <- Zlt_Qlt. Qed.

Lemma Qeq_bool_pos (q : Q) : (0 < q)%Q -> Qeq_bool q 0 = false.
Proof.
  intros H. destruct (Qeq_bool q 0) eqn:E; [| reflexivity ].
  apply Qeq_bool_iff in E. rewrite E in H. now apply Qlt_irrefl in H.
Qed.

Lemma example_clock_advances : clock_advances example_world.
Proof.
  intros t. cbn. rewrite <- Zlt_Qlt. lia.
Defined.

(** C6: when the dataloader yields [num_steps] batches, the sizes are
    positive and the clock advances, a run with [ignore_steps < num_steps]
    ends normally and reports a throughput that is strictly positive (a
    rational, hence finite); a run with [ignore_steps >= num_steps] reports
    no figure and ends in the division error of [on_fit_end]. *)
Theorem C6_throughput_positive_or_error (w : World) (argv : Args.t)
    (plugin : Plugin) (config : Config) :
  In (Args.plugin argv) plugin_choices ->
  select_plugin w argv = inr plugin ->
  resolved w argv = inr config ->
  Z.of_nat (steps_of w argv plugin config) = Args.num_steps argv ->
  (0 < Args.num_steps argv -> Args.ignore_steps argv < Args.num_steps argv ->
   0 < Args.batch_size argv -> 0 < Args.max_length argv ->
   0 < getattr_dp_size w plugin -> clock_advances w ->
   outcome w argv = inr tt
   /\ (exists el tp, In (EvPrintSummary el tp) (events w argv))
   /\ (forall el tp, In (EvPrintSummary el tp) (events w argv) -> (0 < tp)%Q))
  /\ (Args.num_steps argv <= Args.ignore_steps argv ->
      outcome w argv = inl ZeroDivisionError
      /\ (forall el tp, ~ In (EvPrintSummary el tp) (events w argv))).
Proof.
  intros Hin Hsel Hres Hlen.
  destruct (main_run w argv plugin (parse_args_supported argv Hin) Hsel)
    as [_ Hout].
  rewrite Hres in Hout.
  pose proof (on_fit_end_final w argv plugin config) as Hfit. cbn zeta in Hfit.
  split.
  - intros Hsteps Hign Hb Hl Hdp Hclk.
    set (kept := window (Args.ignore_steps argv)
                   (step_measurements w (steps_of w argv plugin config))) in *.
    assert (Hne : kept <> []).
    { apply (window_nonempty w _ _ (Z.to_nat (Z.max 0 (Args.ignore_steps argv))));
        lia. }
    assert (Htot : (0 < PE.total_time kept)%Q)
      by now apply window_time_pos.
    assert (Hcount : 0 < Z.of_nat (length kept)).
    { destruct kept; [ congruence | cbn [length]; lia ]. }
    assert (Hz : (Z.of_nat (length kept) =? 0) = false) by (apply Z.eqb_neq; lia).
    rewrite Hz, (Qeq_bool_pos _ Htot) in Hfit. cbn [orb] in Hfit.
    split; [| split ].
    + rewrite Hout, Hfit. reflexivity.
    + do 2 eexists.
      apply (events_intro w argv plugin config _ Hin Hsel Hres).
      do 5 right. rewrite Hfit. cbn [report_events In]. left. reflexivity.
    + intros el tp He. apply summary_event_inv in He.
      destruct He as (plugin' & config' & s & Hsel' & Hres' & Hfit' & _ & ->).
      assert (plugin' = plugin) by congruence.
      assert (config' = config) by congruence. subst plugin' config'.
      rewrite Hfit in Hfit'. inversion Hfit'. cbn [PE.tokens_per_sec].
      apply Qmult_lt_0_compat; [| now apply inject_Z_pos ].
      apply Qmult_lt_0_compat; [| now apply Qinv_lt_0_compat ].
      apply inject_Z_pos. apply Z.mul_pos_pos; [ now apply Z.mul_pos_pos | exact Hcount ].
  - intros Hign.
    rewrite (window_empty w (Args.ignore_steps argv)
               (steps_of w argv plugin config)) in Hfit by lia.
    cbn [length Z.of_nat Z.eqb orb] in Hfit. split.
    + rewrite Hout, Hfit. reflexivity.
    + intros el tp He. apply summary_event_inv in He.
      destruct He as (plugin' & config' & s & Hsel' & Hres' & Hfit' & _).
      assert (plugin' = plugin) by congruence.
      assert (config' = config) by congruence. subst plugin' config'.
      rewrite Hfit in Hfit'. discriminate Hfit'.
Qed.

Lemma C6_witness :
  (outcome example_world Args.defaults = inr tt
   /\ (exists el tp, In (EvPrintSummary el tp) (events example_world Args.defaults))
   /\ (forall el tp,
         In (EvPrintSummary el tp) (events example_world Args.defaults) ->
         (0 < tp)%Q))
  /\ (outcome example_world (Args.with_steps 2 2 Args.defaults)
      = inl ZeroDivisionError
      /\ (forall el tp,
            ~ In (EvPrintSummary el tp)
                (events example_world (Args.with_steps 2 2 Args.defaults)))).
Proof.
  split.
  - refine (proj1 (C6_throughput_positive_or_error example_world Args.defaults
                     (GeminiPlugin _) (LlamaConfig _) _ eq_refl eq_refl eq_refl)
              _ _ _ _ _ example_clock_advances);
      cbn; first [ lia | tauto ].
  - refine (proj2 (C6_throughput_positive_or_error example_world
                     (Args.with_steps 2 2 Args.defaults)
                     (GeminiPlugin _) (LlamaConfig _) _ eq_refl eq_refl eq_refl)
              _);
      cbn; first [ lia | tauto ].
Defined.

Lemma measured_fst (w : World) (n : nat) :
  forall (step : Z) (tick : nat),
    map fst (measured w n step tick) = zrange step n.
Proof.
  induction n as [| n IH]; intros step tick; cbn [measured zrange map fst].
  - reflexivity.
  - now rewrite IH.
Qed.

Lemma measured_firstn (w : World) (n : nat) :
  forall (k : nat) (step : Z) (tick : nat),
    (k <= n)%nat ->
    measured w k step tick = firstn k (measured w n step tick).
Proof.
  induction n as [| n IH]; intros k step tick Hk.
  - replace k with 0%nat by lia. reflexivity.
  - destruct k as [| k]; [ reflexivity |].
    cbn [measured firstn]. f_equal. apply IH. lia.
Qed.

Lemma loop_measurements (w : World) (argv : Args.t) (plugin : Plugin)
    (config : Config) (k : nat) (s : Sys) :
  let dl := dataloader_of w argv plugin config in
  let pe0 := evaluator_of w argv plugin config in
  exists pe,
    snd ((if pipeline_guard plugin argv
          then pipeline_loop w argv k 0 pe0
          else plain_loop w dl k 0 pe0) s) = inr pe
    /\ PE.measurements pe = measured w k 0 (ticks s).
Proof.
  cbn zeta. eexists. split.
  - destruct (pipeline_guard plugin argv);
      [ rewrite pipeline_loop_run | rewrite plain_loop_run ]; reflexivity.
  - cbn [dataloader_of dl_batch_size dl_dataset dataset_of ds_max_length].
    destruct (measure_loop_fields w (Args.batch_size argv, Args.max_length argv)
                k 0 (ticks s) (evaluator_of w argv plugin config))
      as (_ & _ & Hm & _).
    destruct (pipeline_guard plugin argv); rewrite Hm; reflexivity.
Qed.

(** C7: in both loops every executed step [k] appears in the trace as
    [on_step_start(k)], then the step's forward/backward/update calls and
    nothing else, then [on_step_end]; the evaluator's measurements are those
    of steps 0, 1, ... in this order, and the measurements present after [k]
    steps are the first [k] of those present after all steps. *)
Theorem C7_steps_are_bracketed (w : World) (argv : Args.t) (plugin : Plugin)
    (config : Config) :
  In (Args.plugin argv) plugin_choices ->
  select_plugin w argv = inr plugin ->
  resolved w argv = inr config ->
  let n := steps_of w argv plugin config in
  let dl := dataloader_of w argv plugin config in
  let pe0 := evaluator_of w argv plugin config in
  let pipelined := pipeline_guard plugin argv in
  (forall k, (k < n)%nat ->
     let step := Z.of_nat k in
     let compute := if pipelined then pipeline_compute else plain_compute step in
     let input_ids :=
       if pipelined
       then torch_empty (Args.batch_size argv) (Args.max_length argv)
       else batch_of step dl in
     exists pre post,
       events w argv
       = pre ++ [EvOnStepStart step] ++ compute ++ [EvOnStepEnd input_ids] ++ post
       /\ forallb is_compute compute = true
       /\ In EvOptimizerStep compute)
  /\ PE.measurements (final_evaluator w argv plugin config)
     = step_measurements w n
  /\ map fst (step_measurements w n) = zrange 0 n
  /\ (forall k s, (k <= n)%nat ->
        exists pe_k pe_n,
          snd ((if pipelined then pipeline_loop w argv k 0 pe0
                else plain_loop w dl k 0 pe0) s) = inr pe_k
          /\ snd ((if pipelined then pipeline_loop w argv n 0 pe0
                   else plain_loop w dl n 0 pe0) s) = inr pe_n
          /\ PE.measurements pe_k = firstn k (PE.measurements pe_n)).
Proof.
  intros Hin Hsel Hres. cbn zeta. split; [| split; [| split ] ].
  - intros k Hk.
    destruct (main_run w argv plugin (parse_args_supported argv Hin) Hsel)
      as [Hev _].
    rewrite Hres in Hev. rewrite Hev. unfold loop_events.
    rewrite (zrange_split _ k Hk).
    destruct (pipeline_guard plugin argv); rewrite flat_map_app; cbn [flat_map].
    + exists (booster_events plugin ++ resolve_events argv
              ++ setup_events w argv plugin config
              ++ EvIter :: flat_map (pipeline_step_events argv) (zrange 0 k)).
      exists (EvProfStep
              :: flat_map (pipeline_step_events argv)
                   (zrange (Z.of_nat k + 1)
                      (steps_of w argv plugin config - k - 1))
              ++ EvOnFitEnd
                 :: report_events
                      (PE.on_fit_end (final_evaluator w argv plugin config))).
      split; [| split; [ reflexivity | cbn; tauto ] ].
      unfold pipeline_step_events, pipeline_compute.
      cbn [app]. rewrite <- !app_assoc. cbn [app]. reflexivity.
    + exists (booster_events plugin ++ resolve_events argv
              ++ setup_events w argv plugin config
              ++ flat_map (plain_step_events (dataloader_of w argv plugin config))
                   (zrange 0 k)
              ++ [EvYieldBatch (Z.of_nat k)]).
      exists (EvProfStep
              :: flat_map (plain_step_events (dataloader_of w argv plugin config))
                   (zrange (Z.of_nat k + 1)
                      (steps_of w argv plugin config - k - 1))
              ++ EvOnFitEnd
                 :: report_events
                      (PE.on_fit_end (final_evaluator w argv plugin config))).
      split; [| split; [ reflexivity | cbn; tauto ] ].
      unfold plain_step_events, plain_compute.
      cbn [app]. rewrite <- !app_assoc. cbn [app]. reflexivity.
  - apply final_evaluator_fields.
  - rewrite <- measured_steps. apply measured_fst.
  - intros k s Hk.
    destruct (loop_measurements w argv plugin config k s) as (pe_k & Hk1 & Hk2).
    destruct (loop_measurements w argv plugin config
                (steps_of w argv plugin config) s) as (pe_n & Hn1 & Hn2).
    exists pe_k, pe_n. split; [ exact Hk1 |]. split; [ exact Hn1 |].
    rewrite Hk2, Hn2. now apply measured_firstn.
Qed.

Lemma C7_witness :
  let w := example_world in
  let argv := Args.with_pp 2 (Args.with_plugin "3d" Args.defaults) in
  exists plugin config,
    select_plugin w argv = inr plugin /\ resolved w argv = inr config
    /\ (forall k, (k < 5)%nat ->
          exists pre post,
            events w argv
            = pre ++ [EvOnStepStart (Z.of_nat k)] ++ pipeline_compute
              ++ [EvOnStepEnd (torch_empty 2 4096)] ++ post)
    /\ PE.measurements (final_evaluator w argv plugin config)
       = step_measurements w 5.
Proof.
  cbn zeta.
  eexists (HybridParallelPlugin _), (LlamaConfig _).
  split; [ reflexivity |]. split; [ reflexivity |].
  pose proof (C7_steps_are_bracketed example_world
                (Args.with_pp 2 (Args.with_plugin "3d" Args.defaults))
                _ _ ltac:(cbn; tauto) eq_refl eq_refl) as H.
  cbn zeta in H. destruct H as (Hsteps & Hm & _). split.
  - intros k Hk. destruct (Hsteps k Hk) as (pre & post & Hev & _).
    exists pre, post. exact Hev.
  - exact Hm.
Defined.

(** C8: the data-parallel size is the plugin's [dp_size] attribute when
    the object has one and the coordinator's world size otherwise; this one
    value sizes the synthetic dataset, is handed to the evaluator as
    [dp_world_size] and scales the reported throughput.  The [fsdp] and
    [fsdp_cpu] choices select a [TorchFSDPPlugin]. *)
Theorem C8_dp_size_source (w : World) (argv : Args.t) (plugin : Plugin)
    (config : Config) :
  In (Args.plugin argv) plugin_choices ->
  select_plugin w argv = inr plugin ->
  resolved w argv = inr config ->
  let dp_size :=
    match plugin_dp_size w plugin with
    | Some d => d
    | None => world_size w
    end in
  (exists ds, In (EvRandomDataset ds) (events w argv))
  /\ (forall ds, In (EvRandomDataset ds) (events w argv) ->
        num_samples ds
        = Args.batch_size argv * Args.num_steps argv * dp_size)
  /\ In (EvPerformanceEvaluator (Args.ignore_steps argv) dp_size) (events w argv)
  /\ (forall ig d, In (EvPerformanceEvaluator ig d) (events w argv) ->
        d = dp_size)
  /\ (forall el tp, In (EvPrintSummary el tp) (events w argv) ->
        exists tokens : Z, tp = (inject_Z tokens / el * inject_Z dp_size)%Q)
  /\ (Args.plugin argv = "fsdp" \/ Args.plugin argv = "fsdp_cpu" ->
      exists kw, plugin = TorchFSDPPlugin kw).
Proof.
  intros Hin Hsel Hres. cbn zeta.
  fold (getattr_dp_size w plugin).
  split; [| split; [| split; [| split; [| split ] ] ] ].
  - exists (dataset_of w argv plugin config).
    apply (events_intro w argv plugin config _ Hin Hsel Hres).
    right; right; left. unfold setup_events. cbn. now left.
  - intros ds He. apply dataset_event_inv in He.
    destruct He as (plugin' & config' & Hsel' & _ & ->).
    assert (plugin' = plugin) by congruence. subst plugin'. reflexivity.
  - apply (events_intro w argv plugin config _ Hin Hsel Hres).
    right; right; left. unfold setup_events.
    rewrite !in_app_iff. do 4 right. cbn. tauto.
  - intros ig d He. apply evaluator_event_inv in He.
    destruct He as (plugin' & Hsel' & _ & ->). congruence.
  - intros el tp He.
    destruct (summary_closed_form w argv el tp He)
      as (plugin' & config' & Hsel' & _ & Hel & Htp).
    assert (plugin' = plugin) by congruence. subst plugin'.
    eexists. rewrite Htp, Hel. reflexivity.
  - intros Hname. exact (select_plugin_fsdp w argv plugin Hname Hsel).
Qed.

Lemma C8_witness :
  let w := example_world in
  let argv := Args.with_plugin "fsdp" Args.defaults in
  (forall ds, In (EvRandomDataset ds) (events w argv) ->
     num_samples ds = 2 * 5 * world_size w)
  /\ In (EvPerformanceEvaluator 2 (world_size w)) (events w argv).
Proof.
  cbn zeta.
  pose proof (C8_dp_size_source example_world
                (Args.with_plugin "fsdp" Args.defaults)
                (TorchFSDPPlugin _) (LlamaConfig _)
                ltac:(cbn; tauto) eq_refl eq_refl) as H.
  cbn zeta in H. destruct H as (_ & Hds & Hpe & _).
  split; [ exact Hds | exact Hpe ].
Defined.

(** C9: the script never rejects a [--config] value.  Argument parsing
    accepts the arguments whatever the value; a value among "7b", "13b" and
    "70b" selects the predefined [LlamaConfig] and [from_pretrained] is not
    called; any other value is passed as it is to
    [AutoConfig.from_pretrained] with [trust_remote_code=True], and the only
    failure that can follow from it is the one raised there. *)
Theorem C9_config_never_rejected_locally (w : World) (argv : Args.t) :
  In (Args.plugin argv) plugin_choices ->
  (forall tag, parse_args (Args.with_config tag argv)
               = inr (Args.with_config tag argv))
  /\ (dict_get MODEL_CONFIGS (Args.config argv) <> None
      <-> Args.config argv = "7b" \/ Args.config argv = "13b"
          \/ Args.config argv = "70b")
  /\ (forall kw,
        dict_get MODEL_CONFIGS (Args.config argv) = Some kw ->
        (exists ei, In (EvModelFromConfig (LlamaConfig kw) true ei) (events w argv))
        /\ (forall name trust, ~ In (EvFromPretrained name trust) (events w argv)))
  /\ (dict_get MODEL_CONFIGS (Args.config argv) = None ->
      In (EvFromPretrained (Args.config argv) true) (events w argv)
      /\ (forall name trust,
            In (EvFromPretrained name trust) (events w argv) ->
            name = Args.config argv /\ trust = true)
      /\ (from_pretrained_ok w (Args.config argv) = true ->
          exists ei,
            In (EvModelFromConfig (PretrainedConfig (Args.config argv)) true ei)
              (events w argv))
      /\ (from_pretrained_ok w (Args.config argv) = false ->
          outcome w argv = inl (ExternalError "AutoConfig.from_pretrained")))
  /\ (forall flag value choices, outcome w argv <> inl (ArgparseError flag value choices))
  /\ (forall msg, outcome w argv <> inl (ValueError msg)).
Proof.
  intros Hin.
  destruct (select_plugin_supported w argv Hin) as [plugin Hsel].
  destruct (main_run w argv plugin (parse_args_supported argv Hin) Hsel)
    as [Hev Hout].
  assert (Hmodel : forall config, resolved w argv = inr config ->
            exists ei, In (EvModelFromConfig config true ei) (events w argv)).
  { intros config Hres. eexists.
    apply (events_intro w argv plugin config _ Hin Hsel Hres).
    right; right; left. unfold setup_events.
    rewrite !in_app_iff. do 2 right. left. cbn. left. reflexivity. }
  split; [| split; [| split; [| split; [| split ] ] ] ].
  - intros tag. apply parse_args_supported. exact Hin.
  - apply MODEL_CONFIGS_keys.
  - intros kw Hkw. split.
    + apply Hmodel. unfold resolved. now rewrite Hkw.
    + intros name trust He. apply from_pretrained_event_inv in He.
      destruct He as [He _]. congruence.
  - intros Hnone. split; [| split; [| split ] ].
    + rewrite Hev, !in_app_iff. right. left.
      unfold resolve_events. rewrite Hnone. now left.
    + intros name trust He. apply from_pretrained_event_inv in He. tauto.
    + intros Hok. apply Hmodel. unfold resolved. now rewrite Hnone, Hok.
    + intros Hfail. rewrite Hout. unfold resolved. now rewrite Hnone, Hfail.
  - intros flag value choices. rewrite Hout.
    destruct (resolved w argv) as [e | config] eqn:Hres.
    + unfold resolved in Hres.
      destruct (dict_get MODEL_CONFIGS (Args.config argv)); [ discriminate Hres |].
      destruct (from_pretrained_ok w (Args.config argv)); [ discriminate Hres |].
      inversion Hres. discriminate.
    + rewrite on_fit_end_final. cbn zeta.
      destruct (_ || _); cbn [report_outcome]; discriminate.
  - intros msg. rewrite Hout.
    destruct (resolved w argv) as [e | config] eqn:Hres.
    + unfold resolved in Hres.
      destruct (dict_get MODEL_CONFIGS (Args.config argv)); [ discriminate Hres |].
      destruct (from_pretrained_ok w (Args.config argv)); [ discriminate Hres |].
      inversion Hres. discriminate.
    + rewrite on_fit_end_final. cbn zeta.
      destruct (_ || _); cbn [report_outcome]; discriminate.
Qed.

Lemma C9_witness :
  let w := example_world in
  let argv := Args.with_config "no/such-model" Args.defaults in
  In (EvFromPretrained "no/such-model" true) (events w argv)
  /\ outcome w argv = inl (ExternalError "AutoConfig.from_pretrained").
Proof.
  cbn zeta.
  pose proof (C9_config_never_rejected_locally example_world
                (Args.with_config "no/such-model" Args.defaults)
                ltac:(cbn; tauto)) as H.
  destruct H as (_ & _ & _ & H & _).
  destruct (H eq_refl) as (Hcall & _ & _ & Hfail).
  split; [ exact Hcall | exact (Hfail eq_refl) ].
Defined.

(** C10: the pipeline loop ([iter(dataloader)] and
    [booster.execute_pipeline]) runs exactly when the plugin is the
    hybrid-parallel one (the "3d" and "3d_cpu" choices) and [--pp] is
    greater than one.  There every [on_step_end] receives a tensor of shape
    [(batch_size, max_length)]; in every other run it receives the batch the
    dataloader yielded at that step. *)
Theorem C10_pipeline_path (w : World) (argv : Args.t) (plugin : Plugin)
    (config : Config) :
  In (Args.plugin argv) plugin_choices ->
  select_plugin w argv = inr plugin ->
  resolved w argv = inr config ->
  let hybrid_and_pp :=
    (Args.plugin argv = "3d" \/ Args.plugin argv = "3d_cpu")
    /\ 1 < Args.pp argv in
  (In EvIter (events w argv) <-> hybrid_and_pp)
  /\ (forall r, In (EvExecutePipeline r) (events w argv) -> hybrid_and_pp)
  /\ (hybrid_and_pp ->
      (forall step, ~ In (EvForward step) (events w argv))
      /\ (forall k, (k < steps_of w argv plugin config)%nat ->
            In (EvExecutePipeline false) (events w argv))
      /\ (forall x, In (EvOnStepEnd x) (events w argv) ->
            x = torch_empty (Args.batch_size argv) (Args.max_length argv)
            /\ shape_of x = (Args.batch_size argv, Args.max_length argv)))
  /\ (~ hybrid_and_pp ->
      (forall k, (k < steps_of w argv plugin config)%nat ->
         In (EvForward (Z.of_nat k)) (events w argv)
         /\ In (EvOnStepEnd (batch_of (Z.of_nat k)
                               (dataloader_of w argv plugin config)))
              (events w argv))
      /\ (forall x, In (EvOnStepEnd x) (events w argv) ->
            exists step,
              0 <= step < Z.of_nat (steps_of w argv plugin config)
              /\ x = batch_of step (dataloader_of w argv plugin config))).
Proof.
  intros Hin Hsel Hres. cbn zeta.
  assert (Hguard : pipeline_guard plugin argv = true
                   <-> (Args.plugin argv = "3d" \/ Args.plugin argv = "3d_cpu")
                       /\ 1 < Args.pp argv).
  { unfold pipeline_guard.
    rewrite andb_true_iff, Z.ltb_lt, (select_plugin_hybrid w argv plugin Hsel).
    reflexivity. }
  assert (Hloop : forall e, In e (loop_events w argv plugin config) ->
                            In e (events w argv)).
  { intros e He. apply (events_intro w argv plugin config _ Hin Hsel Hres). tauto. }
  assert (Hsame : forall plugin', select_plugin w argv = inr plugin' ->
                                  plugin' = plugin) by congruence.
  split; [| split; [| split ] ].
  - split.
    + intros He. apply Hguard.
      destruct (pipeline_event_inv w argv EvIter (or_introl eq_refl) He)
        as (plugin' & Hsel' & Hg).
      now rewrite <- (Hsame plugin' Hsel').
    + intros Hg. apply Hguard in Hg. apply Hloop.
      unfold loop_events. rewrite Hg. now left.
  - intros r He. apply Hguard.
    destruct (pipeline_event_inv w argv (EvExecutePipeline r)
                (or_intror (ex_intro _ r eq_refl)) He)
      as (plugin' & Hsel' & Hg).
    now rewrite <- (Hsame plugin' Hsel').
  - intros Hg. apply Hguard in Hg. split; [| split ].
    + intros i He. trace_cases He plugin' config' Hin' Hsel' Hres'.
      rewrite (Hsame plugin' Hsel') in *. congruence.
    + intros k Hk. apply Hloop. apply in_loop_events. rewrite Hg. right.
      exists (Z.of_nat k). split; [ lia |].
      unfold pipeline_step_events, pipeline_compute. cbn. tauto.
    + intros x He. apply step_end_event_inv in He.
      destruct He as (plugin' & config' & Hsel' & _ & Hx).
      rewrite (Hsame plugin' Hsel'), Hg in Hx. subst x. split; reflexivity.
  - intros Hng.
    assert (Hg : pipeline_guard plugin argv = false).
    { destruct (pipeline_guard plugin argv); [| reflexivity ].
      exfalso. apply Hng, Hguard. reflexivity. }
    split.
    + intros k Hk. split; apply Hloop; apply in_loop_events; rewrite Hg;
        exists (Z.of_nat k); (split; [ lia |]);
        unfold plain_step_events, plain_compute; cbn; tauto.
    + intros x He. apply step_end_event_inv in He.
      destruct He as (plugin' & config' & Hsel' & Hres' & Hx).
      assert (config' = config) by congruence. subst config'.
      rewrite (Hsame plugin' Hsel'), Hg in Hx. exact Hx.
Qed.

Lemma C10_witness :
  let w := example_world in
  (In EvIter (events w (Args.with_pp 2 (Args.with_plugin "3d" Args.defaults)))
   <-> ("3d" = "3d" \/ "3d" = "3d_cpu") /\ 1 < 2)
  /\ (In EvIter (events w (Args.with_plugin "3d" Args.defaults))
      <-> ("3d" = "3d" \/ "3d" = "3d_cpu") /\ 1 < 1).
Proof.
  cbn zeta. split.
  - exact (proj1 (C10_pipeline_path example_world
                    (Args.with_pp 2 (Args.with_plugin "3d" Args.defaults))
                    (HybridParallelPlugin _) (LlamaConfig _)
                    ltac:(cbn; tauto) eq_refl eq_refl)).
  - exact (proj1 (C10_pipeline_path example_world
                    (Args.with_plugin "3d" Args.defaults)
                    (HybridParallelPlugin _) (LlamaConfig _)
                    ltac:(cbn; tauto) eq_refl eq_refl)).
Defined.

(** ** Further properties of the script *)

(** X1: the [choices] of [--plugin] and the [if]/[elif] chain name the
    same plugins: the chain constructs a plugin exactly for the names argparse
    accepts, so after a successful parse its [else] branch is never taken. *)
Theorem X1_choices_match_chain (w : World) (a : Args.t) :
  ((exists p, select_plugin w a = inr p) <-> In (Args.plugin a) plugin_choices)
  /\ (forall a', parse_args a = inr a' ->
                 a' = a /\ exists p, select_plugin w a' = inr p).
Proof.
  split.
  - split.
    + intros [p Hp].
      destruct (str_in (Args.plugin a) plugin_choices) eqn:E.
      * now apply str_in_In.
      * apply str_in_not_In in E.
        rewrite (select_plugin_unknown w a E) in Hp. discriminate Hp.
    + apply select_plugin_supported.
  - intros a' Hparse. unfold parse_args in Hparse.
    destruct (str_in (Args.plugin a) plugin_choices) eqn:E;
      [| discriminate Hparse ].
    inversion Hparse; subst a'. split; [ reflexivity |].
    apply select_plugin_supported. now apply str_in_In.
Qed.

(** X2: what plugin construction reads.  Two command lines (and two
    machines) with the same plugin name select the same plugin object as
    soon as they agree on the knobs of that name: none for the FSDP plugins;
    [--tp], [--xformers] and CUDA availability for the others, plus the
    shard/offload fractions and [--extra_dp] for "gemini", [--warmup_ratio]
    and [--extra_dp] for "gemini_auto", [--pp], [--zero] and [--mbs] for "3d"
    and "3d_cpu", and [--custom-ckpt] for "3d" alone. *)
Theorem X2_select_plugin_reads (w w' : World) (a a' : Args.t) :
  Args.plugin a = Args.plugin a' ->
  (Args.plugin a <> "fsdp" -> Args.plugin a <> "fsdp_cpu" ->
   Args.tp a = Args.tp a' /\ Args.xformers a = Args.xformers a'
   /\ cuda_is_available w = cuda_is_available w') ->
  (Args.plugin a = "gemini" ->
   Args.shard_param_frac a = Args.shard_param_frac a'
   /\ Args.offload_optim_frac a = Args.offload_optim_frac a'
   /\ Args.offload_param_frac a = Args.offload_param_frac a'
   /\ Args.extra_dp a = Args.extra_dp a') ->
  (Args.plugin a = "gemini_auto" ->
   Args.warmup_ratio a = Args.warmup_ratio a'
   /\ Args.extra_dp a = Args.extra_dp a') ->
  (Args.plugin a = "3d" \/ Args.plugin a = "3d_cpu" ->
   Args.pp a = Args.pp a' /\ Args.zero a = Args.zero a'
   /\ Args.mbs a = Args.mbs a') ->
  (Args.plugin a = "3d" -> Args.custom_ckpt a = Args.custom_ckpt a') ->
  select_plugin w a = select_plugin w' a'.
Proof.
  intros Hname Hcommon Hgemini Hauto Hhybrid Hckpt.
  unfold select_plugin, hybrid_kwargs, use_empty_init. rewrite <- Hname.
  destruct (String.eqb_spec (Args.plugin a) "gemini") as [E | N1].
  { destruct Hcommon as (-> & -> & ->); [ rewrite E; discriminate .. |].
    destruct (Hgemini E) as (-> & -> & -> & ->). reflexivity. }
  destruct (String.eqb_spec (Args.plugin a) "gemini_auto") as [E | N2].
  { destruct Hcommon as (-> & -> & ->); [ rewrite E; discriminate .. |].
    destruct (Hauto E) as (-> & ->). reflexivity. }
  destruct (String.eqb_spec (Args.plugin a) "fsdp") as [E | N3];
    [ reflexivity |].
  destruct (String.eqb_spec (Args.plugin a) "fsdp_cpu") as [E | N4];
    [ reflexivity |].
  destruct (String.eqb_spec (Args.plugin a) "3d") as [E | N5].
  { destruct (Hcommon N3 N4) as (-> & -> & ->).
    destruct (Hhybrid (or_introl E)) as (-> & -> & ->).
    rewrite (Hckpt E). reflexivity. }
  destruct (String.eqb_spec (Args.plugin a) "3d_cpu") as [E | N6].
  { destruct (Hcommon N3 N4) as (-> & -> & ->).
    destruct (Hhybrid (or_intror E)) as (-> & -> & ->). reflexivity. }
  reflexivity.
Qed.

Lemma X2_witness :
  select_plugin example_world (Args.with_plugin "fsdp_cpu" Args.defaults)
  = select_plugin example_world
      (Args.with_pp 4
         (Args.with_max_length 128
            (Args.with_plugin "fsdp_cpu" Args.defaults))).
Proof.
  apply X2_select_plugin_reads; cbn; intros; try reflexivity;
    repeat match goal with
    | H : _ \/ _ |- _ => destruct H
    | H : _ = _ |- _ => discriminate H
    | H : ?x <> ?x |- _ => elim H; reflexivity
    end.
Defined.

(** The closed form of a run only mentions the plugin and a few fields. *)
Lemma closed_form_reads (w : World) (a a' : Args.t) (plugin : Plugin) :
  Args.config a = Args.config a' ->
  Args.batch_size a = Args.batch_size a' ->
  Args.num_steps a = Args.num_steps a' ->
  Args.ignore_steps a = Args.ignore_steps a' ->
  Args.grad_checkpoint a = Args.grad_checkpoint a' ->
  Args.max_length a = Args.max_length a' ->
  Args.profile a = Args.profile a' ->
  Args.pp a = Args.pp a' ->
  resolve_events a = resolve_events a'
  /\ resolved w a = resolved w a'
  /\ forall config,
       setup_events w a plugin config = setup_events w a' plugin config
       /\ loop_events w a plugin config = loop_events w a' plugin config
       /\ final_evaluator w a plugin config = final_evaluator w a' plugin config.
Proof.
  intros Hc Hb Hs Hi Hg Hl Hp Hpp.
  unfold resolve_events, resolved, setup_events, loop_events, final_evaluator,
    pipeline_guard, steps_of, evaluator_of, dataloader_of, dataset_of,
    pipeline_step_events.
  rewrite Hc, Hb, Hs, Hi, Hg, Hl, Hp, Hpp. repeat split.
Qed.



(** X4: [--memory_limit] is parsed and never used: whatever its value,
    the plugin, the trace and the outcome of the run are the same. *)
Theorem X4_memory_limit_unused (w : World) (a : Args.t) (m : option Z) :
  select_plugin w (set_memory_limit m a) = select_plugin w a
  /\ events w (set_memory_limit m a) = events w a
  /\ outcome w (set_memory_limit m a) = outcome w a.
Proof.
  assert (Hsel : select_plugin w (set_memory_limit m a) = select_plugin w a)
    by reflexivity.
  split; [ exact Hsel |].
  destruct (str_in (Args.plugin a) plugin_choices) eqn:E.
  - apply str_in_In in E.
    destruct (select_plugin_supported w a E) as [plugin Hplugin].
    destruct (main_run w a plugin (parse_args_supported a E) Hplugin)
      as [Hev Hout].
    destruct (main_run w (set_memory_limit m a) plugin
                (parse_args_supported (set_memory_limit m a) E) Hplugin)
      as [Hev' Hout'].
    destruct (closed_form_reads w (set_memory_limit m a) a plugin
                eq_refl eq_refl eq_refl eq_refl eq_refl eq_refl eq_refl eq_refl)
      as (Hre & Hres & Hrest).
    rewrite Hev, Hout, Hev', Hout', Hre, Hres.
    destruct (resolved w a) as [e | config]; [ split; reflexivity |].
    destruct (Hrest config) as (-> & -> & ->). split; reflexivity.
  - apply str_in_not_In in E.
    unfold events, outcome.
    rewrite (run_unsupported w a E), (run_unsupported w (set_memory_limit m a) E).
    split; reflexivity.
Qed.

(** X5: the loop that is run agrees with the plugin that was built: the
    pipeline branch is taken exactly when the selected plugin is a hybrid
    plugin constructed with [pp_size] greater than one. *)
Theorem X5_guard_matches_plugin (w : World) (args : Args.t) (plugin : Plugin) :
  select_plugin w args = inr plugin ->
  (pipeline_guard plugin args = true
   <-> exists kw, plugin = HybridParallelPlugin kw /\ 1 < h_pp_size kw).
Proof.
  unfold select_plugin, use_empty_init, pipeline_guard.
  repeat match goal with
  | |- context [ (?x =? ?y)%string ] =>
      destruct (String.eqb_spec x y) as [? | ?]
  end; intros Hp; inversion Hp; cbn [is_HybridParallelPlugin andb];
  rewrite ?Z.ltb_lt;
  (split;
   [ intros Hx;
     first [ discriminate Hx | eexists; split; [ reflexivity | exact Hx ] ]
   | intros (kw & Hkw & Hlt);
     first [ discriminate Hkw | inversion Hkw; subst kw; exact Hlt ] ]).
Qed.

Lemma X5_witness :
  pipeline_guard
    (HybridParallelPlugin
       {| h_tp_size := 1; h_pp_size := 2; h_zero_stage := 0;
          h_cpu_offload := Some true; h_enable_fused_normalization := true;
          h_enable_flash_attention := false; h_microbatch_size := 1;
          h_initial_scale := Some 256; h_precision := "bf16";
          h_dp_outside := None; h_gradient_checkpoint_config := None;
          h_num_layers_per_stage := None |})
    (Args.with_pp 2 (Args.with_plugin "3d_cpu" Args.defaults)) = true
  <-> exists kw,
        HybridParallelPlugin
          {| h_tp_size := 1; h_pp_size := 2; h_zero_stage := 0;
             h_cpu_offload := Some true; h_enable_fused_normalization := true;
             h_enable_flash_attention := false; h_microbatch_size := 1;
             h_initial_scale := Some 256; h_precision := "bf16";
             h_dp_outside := None; h_gradient_checkpoint_config := None;
             h_num_layers_per_stage := None |}
        = HybridParallelPlugin kw /\ 1 < h_pp_size kw.
Proof.
  apply (X5_guard_matches_plugin example_world). reflexivity.
Defined.

Lemma events_closed (w : World) (argv : Args.t) (plugin : Plugin)
    (config : Config) :
  In (Args.plugin argv) plugin_choices ->
  select_plugin w argv = inr plugin ->
  resolved w argv = inr config ->
  events w argv
  = booster_events plugin ++ resolve_events argv
    ++ setup_events w argv plugin config
    ++ loop_events w argv plugin config
    ++ EvOnFitEnd
       :: report_events (PE.on_fit_end (final_evaluator w argv plugin config)).
Proof.
  intros Hin Hsel Hres.
  destruct (main_run w argv plugin (parse_args_supported argv Hin) Hsel)
    as [Hev _].
  now rewrite Hev, Hres.
Qed.

(** Membership of an event that only the setup phase can emit. *)
Lemma in_events_setup (w : World) (argv : Args.t) (plugin : Plugin)
    (config : Config) (e : Event) :
  In (Args.plugin argv) plugin_choices ->
  select_plugin w argv = inr plugin ->
  resolved w argv = inr config ->
  match e with
  | EvLazyInitContext | EvModelFromConfig _ _ _
  | EvGradientCheckpointingEnable | EvEncoderGradientCheckpointing
  | EvPrepareDataloader _ _ _ _ _ | EvSetDefaultDtype _ | EvBoost => True
  | _ => False
  end ->
  In e (events w argv) <-> In e (setup_events w argv plugin config).
Proof.
  intros Hin Hsel Hres Hkind.
  rewrite (events_closed w argv plugin config Hin Hsel Hres).
  rewrite !in_app_iff. cbn [In]. rewrite in_loop_events.
  split; [| tauto ].
  intros [He | [He | [He | [He | [He | He]]]]]; [| | exact He | | |].
  - unfold booster_events in He. destruct e; try destruct Hkind; absurd_in He.
  - unfold resolve_events in He.
    destruct (dict_get MODEL_CONFIGS (Args.config argv));
      destruct e; try destruct Hkind; absurd_in He.
  - destruct (pipeline_guard plugin argv).
    + destruct He as [-> | (step & _ & He)]; [ destruct Hkind |].
      apply in_pipeline_step in He. unfold pipeline_compute in He.
      destruct e; try destruct Hkind; absurd_in He.
    + destruct He as (step & _ & He).
      apply in_plain_step in He. unfold plain_compute in He.
      destruct e; try destruct Hkind; absurd_in He.
  - subst e. destruct Hkind.
  - destruct (PE.on_fit_end _); destruct e; try destruct Hkind; absurd_in He.
Qed.

Lemma select_plugin_lazy (w : World) (args : Args.t) (p : Plugin) :
  select_plugin w args = inr p ->
  is_Gemini_or_Hybrid p = true
  <-> Args.plugin args <> "fsdp" /\ Args.plugin args <> "fsdp_cpu".
Proof.
  unfold select_plugin, use_empty_init.
  repeat match goal with
  | |- context [ (?a =? ?b)%string ] =>
      destruct (String.eqb_spec a b) as [? | ?]
  end; intros Hp; inversion Hp; cbn;
  (split; [ intros Hx; first [ discriminate Hx | split; congruence ]
          | intros [H1 H2]; first [ reflexivity | congruence ] ]).
Qed.

(** X6: the model is created under [LazyInitContext] for every plugin
    choice except "fsdp" and "fsdp_cpu", which create it directly; when the
    context is entered, it is entered right before the model is created. *)
Theorem X6_lazy_init_unless_fsdp (w : World) (argv : Args.t) (plugin : Plugin)
    (config : Config) :
  In (Args.plugin argv) plugin_choices ->
  select_plugin w argv = inr plugin ->
  resolved w argv = inr config ->
  (In EvLazyInitContext (events w argv)
   <-> Args.plugin argv <> "fsdp" /\ Args.plugin argv <> "fsdp_cpu")
  /\ (In EvLazyInitContext (events w argv) ->
      exists pre ei post,
        events w argv
        = pre ++ [EvLazyInitContext; EvModelFromConfig config true ei] ++ post).
Proof.
  intros Hin Hsel Hres.
  assert (Hlazy : In EvLazyInitContext (events w argv)
                  <-> is_Gemini_or_Hybrid plugin = true).
  { rewrite (in_events_setup w argv plugin config EvLazyInitContext Hin Hsel Hres I).
    unfold setup_events.
    destruct (is_Gemini_or_Hybrid plugin), (Args.grad_checkpoint argv),
      (c_model_type (config_attrs w config) =? "chatglm")%string; cbn;
      intuition discriminate. }
  split.
  - rewrite Hlazy. exact (select_plugin_lazy w argv plugin Hsel).
  - intros He. apply Hlazy in He.
    rewrite (events_closed w argv plugin config Hin Hsel Hres).
    unfold setup_events. rewrite He.
    eexists (booster_events plugin ++ resolve_events argv ++ [_; _]), _, _.
    rewrite <- !app_assoc. cbn [app]. reflexivity.
Qed.

Lemma X6_witness :
  (In EvLazyInitContext (events example_world Args.defaults)
   <-> "gemini" <> "fsdp" /\ "gemini" <> "fsdp_cpu")
  /\ (In EvLazyInitContext
        (events example_world (Args.with_plugin "fsdp" Args.defaults))
      <-> "fsdp" <> "fsdp" /\ "fsdp" <> "fsdp_cpu").
Proof.
  split.
  - exact (proj1 (X6_lazy_init_unless_fsdp example_world Args.defaults
                    (GeminiPlugin _) (LlamaConfig _)
                    ltac:(cbn; tauto) eq_refl eq_refl)).
  - exact (proj1 (X6_lazy_init_unless_fsdp example_world
                    (Args.with_plugin "fsdp" Args.defaults)
                    (TorchFSDPPlugin _) (LlamaConfig _)
                    ltac:(cbn; tauto) eq_refl eq_refl)).
Defined.

(** X7: gradient checkpointing is switched on exactly when
    [--grad_checkpoint] is given; the encoder flag of ChatGLM is set only
    when, in addition, the configuration's model type is "chatglm"; and the
    model is created with [empty_init=False] exactly for that model type,
    always with [trust_remote_code=True]. *)
Theorem X7_checkpointing_and_chatglm (w : World) (argv : Args.t)
    (plugin : Plugin) (config : Config) :
  In (Args.plugin argv) plugin_choices ->
  select_plugin w argv = inr plugin ->
  resolved w argv = inr config ->
  let chatglm := c_model_type (config_attrs w config) = "chatglm" in
  (In EvGradientCheckpointingEnable (events w argv)
   <-> Args.grad_checkpoint argv = true)
  /\ (In EvEncoderGradientCheckpointing (events w argv)
      <-> Args.grad_checkpoint argv = true /\ chatglm)
  /\ (forall cfg trust ei,
        In (EvModelFromConfig cfg trust ei) (events w argv) ->
        cfg = config /\ trust = true
        /\ (ei = Some false <-> chatglm) /\ (ei = None <-> ~ chatglm)).
Proof.
  intros Hin Hsel Hres. cbn zeta.
  rewrite <- String.eqb_eq.
  split; [| split ].
  - rewrite (in_events_setup w argv plugin config EvGradientCheckpointingEnable Hin Hsel Hres I).
    unfold setup_events.
    destruct (is_Gemini_or_Hybrid plugin), (Args.grad_checkpoint argv),
      (c_model_type (config_attrs w config) =? "chatglm")%string; cbn;
      intuition discriminate.
  - rewrite (in_events_setup w argv plugin config EvEncoderGradientCheckpointing Hin Hsel Hres I).
    unfold setup_events.
    destruct (is_Gemini_or_Hybrid plugin), (Args.grad_checkpoint argv),
      (c_model_type (config_attrs w config) =? "chatglm")%string; cbn;
      intuition discriminate.
  - intros cfg trust ei He.
    apply (in_events_setup w argv plugin config (EvModelFromConfig cfg trust ei) Hin Hsel Hres I) in He.
    unfold setup_events in He.
    destruct (c_model_type (config_attrs w config) =? "chatglm")%string eqn:E;
      [ apply String.eqb_eq in E | apply String.eqb_neq in E ];
      destruct (is_Gemini_or_Hybrid plugin), (Args.grad_checkpoint argv);
      absurd_in He; inversion He; subst;
      repeat split; intros; congruence.
Qed.

Lemma X7_witness :
  In EvGradientCheckpointingEnable (events example_world Args.defaults)
  <-> Args.grad_checkpoint Args.defaults = true.
Proof.
  exact (proj1 (X7_checkpointing_and_chatglm example_world Args.defaults
                  (GeminiPlugin _) (LlamaConfig _)
                  ltac:(cbn; tauto) eq_refl eq_refl)).
Defined.

(** X8: when the tag is not built in and [AutoConfig.from_pretrained]
    fails, the run has launched the distributed runtime, constructed the
    plugin and the booster and made that one call, and nothing else: no
    dataset, dataloader, model or evaluator exists when the error surfaces. *)
Theorem X8_config_failure_trace (w : World) (argv : Args.t) (plugin : Plugin) :
  In (Args.plugin argv) plugin_choices ->
  select_plugin w argv = inr plugin ->
  dict_get MODEL_CONFIGS (Args.config argv) = None ->
  from_pretrained_ok w (Args.config argv) = false ->
  events w argv
  = [EvLaunchFromTorch; EvDistCoordinator; EvPluginInit plugin;
     EvBooster plugin; EvFromPretrained (Args.config argv) true]
  /\ outcome w argv = inl (ExternalError "AutoConfig.from_pretrained").
Proof.
  intros Hin Hsel Hnone Hfail.
  destruct (main_run w argv plugin (parse_args_supported argv Hin) Hsel)
    as [Hev Hout].
  rewrite Hev, Hout. unfold resolved, resolve_events, booster_events.
  rewrite Hnone, Hfail. split; reflexivity.
Qed.

Lemma X8_witness :
  let argv := Args.with_config "no/such-model" Args.defaults in
  exists plugin,
    events example_world argv
    = [EvLaunchFromTorch; EvDistCoordinator; EvPluginInit plugin;
       EvBooster plugin; EvFromPretrained "no/such-model" true]
    /\ outcome example_world argv
       = inl (ExternalError "AutoConfig.from_pretrained").
Proof.
  cbn zeta. eexists (GeminiPlugin _).
  apply (X8_config_failure_trace example_world
           (Args.with_config "no/such-model" Args.defaults)).
  - cbn. tauto.
  - reflexivity.
  - reflexivity.
  - reflexivity.
Defined.

(** ** The default dtype along a run *)

Lemma default_dtype_after_app (d : dtype) (l1 l2 : list Event) :
  default_dtype_after d (l1 ++ l2)
  = default_dtype_after (default_dtype_after d l1) l2.
Proof. apply fold_left_app. Qed.

Lemma with_default_dtype_app (l1 l2 : list Event) :
  forall d,
    with_default_dtype d (l1 ++ l2)
    = with_default_dtype d l1
      ++ with_default_dtype (default_dtype_after d l1) l2.
Proof.
  induction l1 as [| e l1 IH]; intros d; cbn [app with_default_dtype].
  - reflexivity.
  - now rewrite IH.
Qed.

Lemma no_set_dtype (l : list Event) :
  (forall d', ~ In (EvSetDefaultDtype d') l) ->
  forall d,
    default_dtype_after d l = d
    /\ with_default_dtype d l = map (fun e => (e, d)) l.
Proof.
  induction l as [| e l IH]; intros Hno d.
  - split; reflexivity.
  - assert (Hl : forall d', ~ In (EvSetDefaultDtype d') l).
    { intros d' Hd. apply (Hno d'). now right. }
    destruct (IH Hl d) as [IH1 IH2].
    destruct e; try (split; [ exact IH1 | cbn; now rewrite IH2 ]).
    exfalso. apply (Hno d0). now left.
Qed.

Lemma loop_events_no_set_dtype (w : World) (args : Args.t) (plugin : Plugin)
    (config : Config) (d : dtype) :
  ~ In (EvSetDefaultDtype d) (loop_events w args plugin config).
Proof.
  intros He. apply in_loop_events in He.
  destruct (pipeline_guard plugin args).
  - destruct He as [He | (step & _ & He)]; [ discriminate He |].
    apply in_pipeline_step in He. unfold pipeline_compute in He. absurd_in He.
  - destruct He as (step & _ & He).
    apply in_plain_step in He. unfold plain_compute in He. absurd_in He.
Qed.

Lemma loop_events_kinds (w : World) (args : Args.t) (plugin : Plugin)
    (config : Config) (e : Event) :
  In e (loop_events w args plugin config) ->
  match e with
  | EvIter | EvYieldBatch _ | EvOnStepStart _ | EvOnStepEnd _ | EvProfStep => True
  | _ => is_compute e = true
  end.
Proof.
  intros He. apply in_loop_events in He.
  destruct (pipeline_guard plugin args).
  - destruct He as [-> | (step & _ & He)]; [ exact I |].
    apply in_pipeline_step in He. unfold pipeline_compute in He.
    cbn [In] in He. intuition (subst e; cbn; auto).
  - destruct He as (step & _ & He).
    apply in_plain_step in He. unfold plain_compute in He.
    cbn [In] in He. intuition (subst e; cbn; auto).
Qed.

(** X9: [torch.set_default_dtype(torch.bfloat16)] is in force for
    [booster.boost] only: the boost happens under bfloat16, every
    forward/backward/update call of the training loop happens under float32,
    and the run leaves the default dtype at float32, whatever it was at the
    start. *)
Theorem X9_default_dtype_restored (w : World) (argv : Args.t) (plugin : Plugin)
    (config : Config) (d0 : dtype) :
  In (Args.plugin argv) plugin_choices ->
  select_plugin w argv = inr plugin ->
  resolved w argv = inr config ->
  default_dtype_after d0 (events w argv) = float32
  /\ In (EvBoost, bfloat16) (with_default_dtype d0 (events w argv))
  /\ (forall e d, In (e, d) (with_default_dtype d0 (events w argv)) ->
        (e = EvBoost -> d = bfloat16)
        /\ (is_compute e = true -> d = float32)).
Proof.
  intros Hin Hsel Hres.
  rewrite (events_closed w argv plugin config Hin Hsel Hres).
  set (B := booster_events plugin).
  set (R := resolve_events argv).
  set (S := setup_events w argv plugin config).
  set (L := loop_events w argv plugin config).
  set (T := EvOnFitEnd :: report_events _).
  pose (ok := fun p : Event * dtype =>
                match fst p with
                | EvBoost => match snd p with bfloat16 => true | _ => false end
                | e => negb (is_compute e)
                end).
  assert (Hok : forall l e d',
            forallb ok l = true -> In (e, d') l ->
            (e = EvBoost -> d' = bfloat16)
            /\ (is_compute e = true -> False)).
  { intros l e d' Hall He.
    assert (H : ok (e, d') = true)
      by exact (proj1 (forallb_forall ok l) Hall (e, d') He).
    unfold ok in H. cbn [fst snd] in H.
    destruct e; cbn in H |- *;
      (split;
       [ intros Hb; first [ discriminate Hb
                          | destruct d'; first [ reflexivity | discriminate H ] ]
       | intros Hc; first [ discriminate Hc | discriminate H ] ]). }
  assert (HB : forall d, default_dtype_after d B = d
                         /\ forallb ok (with_default_dtype d B) = true).
  { intros d. split; reflexivity. }
  assert (HR : forall d, default_dtype_after d R = d
                         /\ forallb ok (with_default_dtype d R) = true).
  { intros d. unfold R, resolve_events.
    destruct (dict_get MODEL_CONFIGS (Args.config argv)); split; reflexivity. }
  pose (boosted := fun p : Event * dtype =>
                     match p with
                     | (EvBoost, bfloat16) => true
                     | _ => false
                     end).
  assert (Hboosted : forall l, existsb boosted l = true ->
                               In (EvBoost, bfloat16) l).
  { intros l Hl. apply existsb_exists in Hl.
    destruct Hl as ([e d'] & Hin' & Hp).
    destruct e; try discriminate Hp. destruct d'; try discriminate Hp.
    exact Hin'. }
  assert (HS : forall d, default_dtype_after d S = float32
                         /\ existsb boosted (with_default_dtype d S) = true
                         /\ forallb ok (with_default_dtype d S) = true).
  { intros d. unfold S, setup_events.
    destruct (is_Gemini_or_Hybrid plugin), (Args.grad_checkpoint argv),
      (c_model_type (config_attrs w config) =? "chatglm")%string;
      repeat split; reflexivity. }
  assert (HL : default_dtype_after float32 L = float32
               /\ forall e d', In (e, d') (with_default_dtype float32 L) ->
                               e <> EvBoost /\ d' = float32).
  { destruct (no_set_dtype L (loop_events_no_set_dtype w argv plugin config)
                float32) as [H1 H2].
    split; [ exact H1 |]. intros e d' He. rewrite H2 in He.
    apply in_map_iff in He. destruct He as (e' & He' & Hin').
    inversion He'; subst e' d'.
    apply loop_events_kinds in Hin'.
    split; [ intros ->; cbn in Hin'; discriminate Hin' | reflexivity ]. }
  assert (HT : forall d, default_dtype_after d T = d
                         /\ forallb ok (with_default_dtype d T) = true).
  { intros d. unfold T.
    destruct (PE.on_fit_end _) as [err | sm]; split; reflexivity. }
  clearbody B R S L T.
  rewrite !default_dtype_after_app, !with_default_dtype_app.
  rewrite (proj1 (HB d0)), (proj1 (HR d0)), (proj1 (HS d0)), (proj1 HL).
  split; [ apply HT |]. split.
  - rewrite !in_app_iff. right; right; left. apply Hboosted, HS.
  - intros e d He. rewrite !in_app_iff in He.
    destruct He as [He | [He | [He | [He | He]]]].
    + destruct (Hok _ e d (proj2 (HB d0)) He) as [Hb Hc].
      split; [ exact Hb | intros H; destruct (Hc H) ].
    + destruct (Hok _ e d (proj2 (HR d0)) He) as [Hb Hc].
      split; [ exact Hb | intros H; destruct (Hc H) ].
    + destruct (Hok _ e d (proj2 (proj2 (HS d0))) He) as [Hb Hc].
      split; [ exact Hb | intros H; destruct (Hc H) ].
    + destruct (proj2 HL e d He) as [Hnb Hd].
      split; [ congruence | intros _; exact Hd ].
    + destruct (Hok _ e d (proj2 (HT float32)) He) as [Hb Hc].
      split; [ exact Hb | intros H; destruct (Hc H) ].
Qed.

Lemma X9_witness :
  default_dtype_after float16 (events example_world Args.defaults) = float32
  /\ In (EvBoost, bfloat16)
       (with_default_dtype float16 (events example_world Args.defaults)).
Proof.
  destruct (X9_default_dtype_restored example_world Args.defaults
              (GeminiPlugin _) (LlamaConfig _) float16
              ltac:(cbn; tauto) eq_refl eq_refl) as (H1 & H2 & _).
  split; [ exact H1 | exact H2 ].
Defined.

(** ** Counting calls *)

Lemma count_events_app (kind : Event -> bool) (l1 l2 : list Event) :
  count_events kind (l1 ++ l2)
  = (count_events kind l1 + count_events kind l2)%nat.
Proof. unfold count_events. now rewrite filter_app, length_app. Qed.

Lemma count_events_flat_map (kind : Event -> bool) (g : Z -> list Event)
    (k : nat) (l : list Z) :
  (forall x, count_events kind (g x) = k) ->
  count_events kind (flat_map g l) = (k * length l)%nat.
Proof.
  intros Hg. induction l as [| x l IH]; cbn [flat_map length].
  - now rewrite Nat.mul_0_r.
  - rewrite count_events_app, Hg, IH. lia.
Qed.

Lemma zrange_length (n : nat) : forall a, length (zrange a n) = n.
Proof.
  induction n as [| n IH]; intros a; cbn [zrange length];
    [ reflexivity | now rewrite IH ].
Qed.

(** The number of events of a kind that only the loops emit. *)
Lemma count_events_run (w : World) (argv : Args.t) (plugin : Plugin)
    (config : Config) (kind : Event -> bool) (per_pipeline per_plain : nat) :
  In (Args.plugin argv) plugin_choices ->
  select_plugin w argv = inr plugin ->
  resolved w argv = inr config ->
  (forall e, kind e = true ->
     match e with
     | EvYieldBatch _ | EvOnStepStart _ | EvExecutePipeline _ | EvForward _
     | EvBackward | EvOptimizerStep | EvZeroGrad | EvOnStepEnd _
     | EvProfStep => True
     | _ => False
     end) ->
  (forall step, count_events kind (pipeline_step_events argv step) = per_pipeline) ->
  (forall step,
     count_events kind
       (plain_step_events (dataloader_of w argv plugin config) step)
     = per_plain) ->
  count_events kind (events w argv)
  = ((if pipeline_guard plugin argv then per_pipeline else per_plain)
     * steps_of w argv plugin config)%nat.
Proof.
  intros Hin Hsel Hres Hkind Hpipe Hplain.
  pose (outside := fun e : Event =>
                     match e with
                     | EvYieldBatch _ | EvOnStepStart _
                     | EvExecutePipeline _ | EvForward _
                     | EvBackward | EvOptimizerStep | EvZeroGrad
                     | EvOnStepEnd _ | EvProfStep => false
                     | _ => true
                     end).
  assert (Hout : forall l, forallb outside l = true ->
                           count_events kind l = 0%nat).
  { unfold count_events. induction l as [| e l IH]; intros Hl; [ reflexivity |].
    cbn [forallb] in Hl. apply andb_true_iff in Hl. destruct Hl as [He Hl].
    cbn [filter]. destruct (kind e) eqn:E; [| exact (IH Hl) ].
    apply Hkind in E.
    destruct e; cbn in He, E; first [ discriminate He | destruct E ]. }
  rewrite (events_closed w argv plugin config Hin Hsel Hres).
  rewrite !count_events_app.
  assert (HB : count_events kind (booster_events plugin) = 0%nat)
    by (apply Hout; reflexivity).
  assert (HR : count_events kind (resolve_events argv) = 0%nat).
  { apply Hout. unfold resolve_events.
    destruct (dict_get MODEL_CONFIGS (Args.config argv)); reflexivity. }
  assert (HS : count_events kind (setup_events w argv plugin config) = 0%nat).
  { apply Hout. unfold setup_events.
    destruct (is_Gemini_or_Hybrid plugin), (Args.grad_checkpoint argv),
      (c_model_type (config_attrs w config) =? "chatglm")%string;
      reflexivity. }
  assert (HT : count_events kind
                 (EvOnFitEnd
                  :: report_events
                       (PE.on_fit_end (final_evaluator w argv plugin config)))
               = 0%nat).
  { apply Hout. destruct (PE.on_fit_end _) as [err | sm]; reflexivity. }
  rewrite HB, HR, HS, HT. unfold loop_events.
  destruct (pipeline_guard plugin argv).
  - change (EvIter :: ?l) with ([EvIter] ++ l).
    rewrite count_events_app.
    rewrite (count_events_flat_map kind _ per_pipeline _ Hpipe), zrange_length.
    rewrite (Hout [EvIter] eq_refl). lia.
  - rewrite (count_events_flat_map kind _ per_plain _ Hplain), zrange_length.
    lia.
Qed.

(** X10: a run performs, per batch of the dataloader, exactly one
    [on_step_start], one model pass (a forward call, or one
    [execute_pipeline]), one [optimizer.step], one [optimizer.zero_grad], one
    [on_step_end] and one [prof.step]; [booster.backward] is called once per
    batch in the plain loop and never in the pipeline loop, and the script
    draws the batch itself only in the plain loop. *)
Theorem X10_calls_per_step (w : World) (argv : Args.t) (plugin : Plugin)
    (config : Config) :
  In (Args.plugin argv) plugin_choices ->
  select_plugin w argv = inr plugin ->
  resolved w argv = inr config ->
  let n := steps_of w argv plugin config in
  let tr := events w argv in
  count_events is_on_step_start tr = n
  /\ count_events is_model_pass tr = n
  /\ count_events is_optimizer_step tr = n
  /\ count_events is_zero_grad tr = n
  /\ count_events is_on_step_end tr = n
  /\ count_events is_prof_step tr = n
  /\ count_events is_backward tr
     = (if pipeline_guard plugin argv then 0 else n)%nat
  /\ count_events is_yield_batch tr
     = (if pipeline_guard plugin argv then 0 else n)%nat.
Proof.
  intros Hin Hsel Hres. cbn zeta.
  repeat split;
    match goal with
    | |- count_events ?kind _ = (if _ then 0 else _)%nat =>
        rewrite (count_events_run w argv plugin config kind 0 1 Hin Hsel Hres)
    | |- count_events ?kind _ = _ =>
        rewrite (count_events_run w argv plugin config kind 1 1 Hin Hsel Hres)
    end;
    try (destruct (pipeline_guard plugin argv); lia);
    try (intros step; reflexivity);
    intros e He; destruct e; first [ exact I | discriminate He ].
Qed.

Lemma X10_witness :
  count_events is_optimizer_step (events example_world Args.defaults) = 5%nat
  /\ count_events is_backward
       (events example_world
          (Args.with_pp 2 (Args.with_plugin "3d" Args.defaults))) = 0%nat.
Proof.
  destruct (X10_calls_per_step example_world Args.defaults
              (GeminiPlugin _) (LlamaConfig _)
              ltac:(cbn; tauto) eq_refl eq_refl)
    as (_ & _ & Hopt & _).
  destruct (X10_calls_per_step example_world
              (Args.with_pp 2 (Args.with_plugin "3d" Args.defaults))
              (HybridParallelPlugin _) (LlamaConfig _)
              ltac:(cbn; tauto) eq_refl eq_refl)
    as (_ & _ & _ & _ & _ & _ & Hback & _).
  split; [ exact Hopt | exact Hback ].
Defined.

(** X11: the synthetic data fits the model it is fed to.  The dataset is
    built with the vocabulary size of the very configuration the model is
    created from and with sequences of [--max_length] tokens, and the
    dataloader is prepared by the plugin that was handed to the booster, over
    that dataset, with [--batch_size], shuffling and [drop_last]. *)
Theorem X11_data_matches_model (w : World) (argv : Args.t) :
  (forall ds cfg trust ei,
     In (EvRandomDataset ds) (events w argv) ->
     In (EvModelFromConfig cfg trust ei) (events w argv) ->
     ds_vocab_size ds = c_vocab_size (config_attrs w cfg)
     /\ ds_max_length ds = Args.max_length argv)
  /\ (forall p ds b sh dl,
        In (EvPrepareDataloader p ds b sh dl) (events w argv) ->
        In (EvBooster p) (events w argv)
        /\ In (EvRandomDataset ds) (events w argv)
        /\ b = Args.batch_size argv /\ sh = true /\ dl = true).
Proof.
  split.
  - intros ds cfg trust ei Hds Hmodel.
    apply dataset_event_inv in Hds.
    destruct Hds as (plugin & config & _ & Hres & ->).
    apply model_event_inv in Hmodel. destruct Hmodel as [Hres' _].
    assert (cfg = config) by congruence. subst cfg.
    split; reflexivity.
  - intros p ds b sh dl He.
    trace_cases He plugin config Hin Hsel Hres;
      (assert (Hb : In (EvBooster plugin) (events w argv))
         by (apply (events_intro w argv plugin config _ Hin Hsel Hres);
             left; unfold booster_events; cbn; tauto));
      (assert (Hd : In (EvRandomDataset (dataset_of w argv plugin config))
                      (events w argv))
         by (apply (events_intro w argv plugin config _ Hin Hsel Hres);
             right; right; left; unfold setup_events; cbn; tauto));
      inversion He; subst; repeat split; assumption.
Qed.

Lemma X11_witness :
  let ds := {| num_samples := 80; ds_max_length := 4096;
               ds_vocab_size := 32000 |} in
  let cfg := LlamaConfig
               {| hidden_size := None; intermediate_size := None;
                  num_hidden_layers := None; num_attention_heads := None;
                  max_position_embeddings := Some 4096;
                  num_key_value_heads := None |} in
  ds_vocab_size ds = c_vocab_size (config_attrs example_world cfg)
  /\ ds_max_length ds = 4096.
Proof.
  cbn zeta.
  refine (proj1 (X11_data_matches_model example_world Args.defaults)
            _ _ true None _ _);
    vm_compute; repeat (first [ left; reflexivity | right ]).
Defined.

(** X12: in the plain loop the batch of step [k] is drawn from the
    dataloader right before [on_step_start(k)]: fetching the data is not part
    of what the evaluator times. *)
Theorem X12_fetch_before_timing (w : World) (argv : Args.t) (plugin : Plugin)
    (config : Config) (k : nat) :
  In (Args.plugin argv) plugin_choices ->
  select_plugin w argv = inr plugin ->
  resolved w argv = inr config ->
  pipeline_guard plugin argv = false ->
  (k < steps_of w argv plugin config)%nat ->
  exists pre post,
    events w argv
    = pre ++ [EvYieldBatch (Z.of_nat k); EvOnStepStart (Z.of_nat k);
              EvForward (Z.of_nat k)] ++ post.
Proof.
  intros Hin Hsel Hres Hguard Hk.
  rewrite (events_closed w argv plugin config Hin Hsel Hres).
  unfold loop_events. rewrite Hguard, (zrange_split _ k Hk), flat_map_app.
  cbn [flat_map].
  exists (booster_events plugin ++ resolve_events argv
          ++ setup_events w argv plugin config
          ++ flat_map (plain_step_events (dataloader_of w argv plugin config))
               (zrange 0 k)).
  eexists.
  unfold plain_step_events, plain_compute.
  cbn [app]. rewrite <- !app_assoc. cbn [app]. reflexivity.
Qed.

Lemma X12_witness :
  exists pre post,
    events example_world Args.defaults
    = pre ++ [EvYieldBatch 3; EvOnStepStart 3; EvForward 3] ++ post.
Proof.
  exact (X12_fetch_before_timing example_world Args.defaults
           (GeminiPlugin _) (LlamaConfig _) 3
           ltac:(cbn; tauto) eq_refl eq_refl eq_refl ltac:(cbn; lia)).
Defined.

(** X13: the parallelism knobs reach the plugin unchanged.  Every Gemini
    or hybrid plugin is built with precision "bf16", [tp_size = --tp], flash
    attention as [--xformers] says and fused normalization as CUDA is
    available; a Gemini plugin gets [extra_dp_size = --extra_dp]; a hybrid
    plugin gets [pp_size = --pp], [zero_stage = --zero] and
    [microbatch_size = --mbs]; an FSDP plugin always uses float16 mixed
    precision and offloads parameters to the CPU exactly for "fsdp_cpu". *)
Theorem X13_knobs_reach_plugin (w : World) (args : Args.t) (p : Plugin) :
  select_plugin w args = inr p ->
  match p with
  | GeminiPlugin kw =>
      g_precision kw = "bf16"
      /\ g_tp_size kw = Args.tp args
      /\ g_extra_dp_size kw = Args.extra_dp args
      /\ g_enable_flash_attention kw = Args.xformers args
      /\ g_enable_fused_normalization kw = cuda_is_available w
  | HybridParallelPlugin kw =>
      h_precision kw = "bf16"
      /\ h_tp_size kw = Args.tp args
      /\ h_pp_size kw = Args.pp args
      /\ h_zero_stage kw = Args.zero args
      /\ h_microbatch_size kw = Args.mbs args
      /\ h_enable_flash_attention kw = Args.xformers args
      /\ h_enable_fused_normalization kw = cuda_is_available w
      /\ (h_cpu_offload kw = Some true <-> Args.plugin args = "3d_cpu")
  | TorchFSDPPlugin kw =>
      f_mixed_precision kw = fp16_mixed_precision
      /\ (f_cpu_offload kw = Some {| offload_params := true |}
          <-> Args.plugin args = "fsdp_cpu")
      /\ (f_cpu_offload kw = None <-> Args.plugin args = "fsdp")
  end.
Proof.
  unfold select_plugin, use_empty_init.
  repeat match goal with
  | |- context [ (?a =? ?b)%string ] =>
      destruct (String.eqb_spec a b) as [? | ?]
  end; intros Hp; inversion Hp; cbn;
  repeat split; intros; congruence.
Qed.

Lemma X13_witness :
  match select_plugin example_world
          (Args.with_pp 2 (Args.with_plugin "3d_cpu" Args.defaults)) with
  | inr (HybridParallelPlugin kw) => h_pp_size kw = 2
  | _ => False
  end.
Proof.
  exact (proj1 (proj2 (proj2
           (X13_knobs_reach_plugin example_world
              (Args.with_pp 2 (Args.with_plugin "3d_cpu" Args.defaults))
              (HybridParallelPlugin _) eq_refl)))).
Defined.
